(** * ThumbnailExporter: the editor plugin's export routine over an abstract engine

    The plugin (ThumbnailExporter.cpp / ThumbnailExporter.h) is orchestration
    code: every step of [ExportThumbnailAsPNG] is a call into the host engine.
    The routine is embedded as a state-passing program over a [World] (the
    engine's file system and the journal of engine calls made so far).  The
    engine subsystems it calls (asset registry, thumbnail renderer, image
    wrapper, file manager) are the fields of an [Engine] record, so the
    general theorems hold for any engine; a small concrete engine, [Editor],
    runs the routine on examples.  The pure string helpers of the engine's
    [FPaths] and [FString] are written out, since the routine computes its
    output path with them. *)

From Stdlib Require Import String Ascii List ZArith Lia Bool.
From Stdlib.Strings Require Import Byte.
Import ListNotations.
Open Scope string_scope.

(** ** Engine strings *)

Definition FString := string.

(** The members of the engine's [FString] the plugin and [FPaths] use.
    An index result that the engine reports as [INDEX_NONE] is [None]. *)
Module FStr.

Definition IsEmpty (s : FString) : bool :=
  match s with
  | EmptyString => true
  | String _ _ => false
  end.

(** [Len()]. *)
Abbreviation Len := String.length.

(** [Left(Count)]: the leftmost [Count] characters (all of them if shorter). *)
Fixpoint Left (Count : nat) (s : FString) : FString :=
  match Count, s with
  | O, _ => EmptyString
  | S _, EmptyString => EmptyString
  | S n, String c s' => String c (Left n s')
  end.

(** [RightChop(Count)]: the string without its leftmost [Count] characters. *)
Fixpoint RightChop (Count : nat) (s : FString) : FString :=
  match Count, s with
  | O, _ => s
  | S _, EmptyString => EmptyString
  | S n, String _ s' => RightChop n s'
  end.

(** [Mid(Start, Count)]. *)
Definition Mid (Start Count : nat) (s : FString) : FString :=
  Left Count (RightChop Start s).

(** [FindLastCharByPredicate(Pred)]: index of the last character that
    satisfies [Pred]. *)
Fixpoint FindLastCharByPredicate (Pred : ascii -> bool) (s : FString) : option nat :=
  match s with
  | EmptyString => None
  | String c s' =>
      match FindLastCharByPredicate Pred s' with
      | Some i => Some (S i)
      | None => if Pred c then Some O else None
      end
  end.

(** [FindLastChar(Ch, Index)]. *)
Definition FindLastChar (Ch : ascii) (s : FString) : option nat :=
  FindLastCharByPredicate (Ascii.eqb Ch) s.

(** [EndsWith(Suffix)], case sensitive. *)
Definition EndsWith (Suffix s : FString) : bool :=
  String.eqb (RightChop (Len s - Len Suffix) s) Suffix && (Len Suffix <=? Len s)%nat.

End FStr.

(** ** Engine path helpers

    [FPaths] belongs to the engine's Core module, not to the plugin.  These
    are the two functions the routine calls, [ChangeExtension] and [GetPath],
    and the two that name the parts of a path, [GetCleanFilename] and
    [GetBaseFilename], written after the engine's Misc/Paths, whose header
    documents [ChangeExtension] as: changes the extension of the given
    filename (does nothing if the file has no extension). *)
Module FPaths.

Definition IsSlashOrBackslash (c : ascii) : bool :=
  Ascii.eqb c "/" || Ascii.eqb c "\".

Definition IsNotSlashOrBackslash (c : ascii) : bool :=
  negb (IsSlashOrBackslash c).

(** Position of the dot that starts the extension of the file name, if any:
    the last dot, unless a path separator follows it. *)
Definition ExtensionPos (InPath : FString) : option nat :=
  match FStr.FindLastChar "." InPath with
  | Some Pos =>
      match FStr.FindLastCharByPredicate IsSlashOrBackslash InPath with
      | Some PathEndPos =>
          if (Pos <? PathEndPos)%nat
          then None (* the dot found was part of the path rather than the name *)
          else Some Pos
      | None => Some Pos
      end
  | None => None
  end.

Definition ChangeExtension (InPath InNewExtension : FString) : FString :=
  match ExtensionPos InPath with
  | Some Pos =>
      let Result := FStr.Left Pos InPath in
      let Result :=
        match InNewExtension with
        | String c _ => if Ascii.eqb c "." then Result else Result ++ "."
        | EmptyString => Result
        end in
      Result ++ InNewExtension
  | None => InPath
  end.

Definition GetPath (InPath : FString) : FString :=
  match FStr.FindLastCharByPredicate IsSlashOrBackslash InPath with
  | Some Pos => FStr.Left Pos InPath
  | None => EmptyString
  end.

Definition GetCleanFilename (InPath : FString) : FString :=
  let EndPos :=
    match FStr.FindLastCharByPredicate IsNotSlashOrBackslash InPath with
    | Some i => S i
    | None => O
    end in
  let StartPos :=
    match FStr.FindLastCharByPredicate IsSlashOrBackslash (FStr.Left EndPos InPath) with
    | Some i => S i
    | None => O
    end in
  FStr.Mid StartPos (EndPos - StartPos) InPath.

Definition GetBaseFilename (InPath : FString) (bRemovePath : bool) : FString :=
  let Wk := if bRemovePath then GetCleanFilename InPath else InPath in
  match FStr.FindLastChar "." Wk with
  | Some ExtPos =>
      let LeafPos :=
        if bRemovePath then None
        else FStr.FindLastCharByPredicate IsSlashOrBackslash Wk in
      match LeafPos with
      | None => FStr.Left ExtPos Wk
      | Some LeafPos => if (LeafPos <? ExtPos)%nat then FStr.Left ExtPos Wk else Wk
      end
  | None => Wk
  end.

End FPaths.

(** ** Engine types seen by the plugin *)

Inductive ELogVerbosity : Set := Warning | Log.

Inductive EImageFormat : Set := PNG | JPEG | GrayscaleJPEG | BMP | ICO | EXR | ICNS.

Inductive ERGBFormat : Set := RGBA | BGRA | Gray.

Inductive EThumbnailTextureFlushMode : Set := NeverFlush | AlwaysFlush.

(** [FObjectThumbnail]: the in-memory thumbnail the renderer fills. *)
Record FObjectThumbnail : Set := mkThumbnail {
  GetImageWidth : Z;
  GetImageHeight : Z;
  GetUncompressedImageData : list byte
}.

(** A default-constructed [FObjectThumbnail]. *)
Definition EmptyThumbnail : FObjectThumbnail := mkThumbnail 0 0 [].

(** The arguments of [IImageWrapper::SetRaw]. *)
Record FRawImage : Set := mkRaw {
  RawData : list byte;
  RawSize : Z;
  RawWidth : Z;
  RawHeight : Z;
  RawFormat : ERGBFormat;
  RawBitDepth : Z
}.

(** An [IImageWrapper]: the format it was created for and the raw image it
    holds once [SetRaw] was called. *)
Record IImageWrapper : Set := mkWrapper {
  WrapperFormat : EImageFormat;
  WrapperRaw : option FRawImage
}.

(** [TArray::Num]. *)
Definition Num {A : Type} (a : list A) : Z := Z.of_nat (List.length a).

(** ** The host engine

    What the plugin calls and does not implement: the asset registry, the
    thumbnail renderer, the image wrapper module and the file manager.  A
    failed or refused operation is an answer of the engine ([None], [false],
    an empty array), as in the engine's interfaces.  The two
    [LoadModuleChecked] calls assert inside the engine when a module is
    missing; the routine runs in an editor where both modules load. *)
Record Engine : Type := mkEngine {
  UObject : Type;
  FAssetData : Type;
  FileSystem : Type;
  (** [IAssetRegistry::GetAssetByObjectPath(FName(Path))]. *)
  RegistryLookup : FString -> FAssetData;
  (** [FAssetData::GetAsset()]; [None] is [nullptr]. *)
  AssetOf : FAssetData -> option UObject;
  (** [ThumbnailTools::RenderThumbnail(Object, Width, Height, FlushMode,
      nullptr, OutThumbnail)]: the thumbnail passed in, as the call leaves it. *)
  Render : UObject -> Z -> Z -> EThumbnailTextureFlushMode ->
           FObjectThumbnail -> FObjectThumbnail;
  (** Whether [CreateImageWrapper(Format)] yields a valid wrapper. *)
  HasImageWrapper : EImageFormat -> bool;
  (** [IImageWrapper::GetCompressed(Quality)] on a wrapper of the given
      format holding the given raw image. *)
  Compress : EImageFormat -> FRawImage -> Z -> list byte;
  (** [IFileManager::DirectoryExists], [IFileManager::MakeDirectory(Path,
      Tree)] and [FFileHelper::SaveArrayToFile], each with its result and the
      file system it leaves. *)
  FsDirectoryExists : FileSystem -> FString -> bool;
  FsMakeDirectory : FileSystem -> FString -> bool -> bool * FileSystem;
  FsSaveArrayToFile : FileSystem -> list byte -> FString -> bool * FileSystem
}.

(** ** The world and the journal of engine calls *)

Section World.

Variable E : Engine.

(** One entry per call the plugin makes into the engine, with the arguments
    it passed. *)
Inductive EngineCall : Type :=
| CallLog (Verbosity : ELogVerbosity) (Message : FString)
| CallGetAssetByObjectPath (ObjectPath : FString)
| CallGetAsset (AssetData : FAssetData E)
| CallRenderThumbnail (Object : UObject E) (Width Height : Z)
    (FlushMode : EThumbnailTextureFlushMode)
| CallCreateImageWrapper (Format : EImageFormat)
| CallSetRaw (Raw : FRawImage)
| CallGetCompressed (Quality : Z)
| CallDirectoryExists (Path : FString)
| CallMakeDirectory (Path : FString) (Tree : bool)
| CallSaveArrayToFile (Bytes : list byte) (Filename : FString).

Record World : Type := mkWorld {
  disk : FileSystem E;
  journal : list EngineCall
}.

(** A call returns a value and the world it leaves. *)
Definition Call (A : Type) : Type := World -> A * World.

Definition ret {A : Type} (a : A) : Call A := fun w => (a, w).

Definition bind {A B : Type} (m : Call A) (k : A -> Call B) : Call B :=
  fun w => let (a, w') := m w in k a w'.

Definition noted (c : EngineCall) : Call unit :=
  fun w => (tt, mkWorld (disk w) (journal w ++ [c])).

End World.

Arguments CallLog {E}.
Arguments CallGetAssetByObjectPath {E}.
Arguments CallGetAsset {E}.
Arguments CallRenderThumbnail {E}.
Arguments CallCreateImageWrapper {E}.
Arguments CallSetRaw {E}.
Arguments CallGetCompressed {E}.
Arguments CallDirectoryExists {E}.
Arguments CallMakeDirectory {E}.
Arguments CallSaveArrayToFile {E}.
Arguments mkWorld {E}.
Arguments disk {E}.
Arguments journal {E}.
Arguments ret {E A}.
Arguments bind {E A B}.
Arguments noted {E}.

Declare Scope call_scope.
Delimit Scope call_scope with call.
Notation "x <- m ;; k" := (bind m (fun x => k))
  (at level 61, m at next level, right associativity) : call_scope.
Notation "m ;; k" := (bind m (fun _ => k))
  (at level 61, right associativity) : call_scope.
Open Scope call_scope.

(** ** Engine calls as the plugin makes them *)

Section Host.

Variable E : Engine.

Definition UE_LOG (v : ELogVerbosity) (msg : FString) : Call E unit :=
  noted (CallLog v msg).

Definition GetAssetByObjectPath (ObjectPath : FString) : Call E (FAssetData E) :=
  noted (CallGetAssetByObjectPath ObjectPath) ;;
  ret (RegistryLookup E ObjectPath).

Definition GetAsset (AssetData : FAssetData E) : Call E (option (UObject E)) :=
  noted (CallGetAsset AssetData) ;;
  ret (AssetOf E AssetData).

Definition RenderThumbnail (Object : UObject E) (Width Height : Z)
    (FlushMode : EThumbnailTextureFlushMode) (OutThumbnail : FObjectThumbnail)
    : Call E FObjectThumbnail :=
  noted (CallRenderThumbnail Object Width Height FlushMode) ;;
  ret (Render E Object Width Height FlushMode OutThumbnail).

Definition CreateImageWrapper (Format : EImageFormat) : Call E (option IImageWrapper) :=
  noted (CallCreateImageWrapper Format) ;;
  ret (if HasImageWrapper E Format then Some (mkWrapper Format None) else None).

Definition SetRaw (W : IImageWrapper) (Data : list byte) (Size Width Height : Z)
    (Format : ERGBFormat) (BitDepth : Z) : Call E IImageWrapper :=
  let raw := mkRaw Data Size Width Height Format BitDepth in
  noted (CallSetRaw raw) ;;
  ret (mkWrapper (WrapperFormat W) (Some raw)).

Definition GetCompressed (W : IImageWrapper) (Quality : Z) : Call E (list byte) :=
  noted (CallGetCompressed Quality) ;;
  ret (match WrapperRaw W with
       | Some raw => Compress E (WrapperFormat W) raw Quality
       | None => []
       end).

Definition DirectoryExists (Path : FString) : Call E bool :=
  fun w => (FsDirectoryExists E (disk w) Path,
            mkWorld (disk w) (journal w ++ [CallDirectoryExists Path])).

Definition MakeDirectory (Path : FString) (Tree : bool) : Call E bool :=
  fun w => let (ok, d) := FsMakeDirectory E (disk w) Path Tree in
           (ok, mkWorld d (journal w ++ [CallMakeDirectory Path Tree])).

Definition SaveArrayToFile (Bytes : list byte) (Filename : FString) : Call E bool :=
  fun w => let (ok, d) := FsSaveArrayToFile E (disk w) Bytes Filename in
           (ok, mkWorld d (journal w ++ [CallSaveArrayToFile Bytes Filename])).

End Host.

(** ** The plugin (ThumbnailExporter.cpp) *)

Section ThumbnailExporter.

Variable E : Engine.

(** [FThumbnailExporterModule::StartupModule]. *)
Definition StartupModule : Call E unit :=
  UE_LOG E Warning "ThumbnailExporter Plugin Loaded Successfully!".

(** [FThumbnailExporterModule::ShutdownModule]. *)
Definition ShutdownModule : Call E unit :=
  UE_LOG E Warning "ThumbnailExporter Plugin Unloaded!".

(** [UThumbnailExporter::PrintTestMessage]. *)
Definition PrintTestMessage : Call E unit :=
  UE_LOG E Warning "ThumbnailExporter Test Message: Plugin is Active and Working!".

(** [UThumbnailExporter::ExportThumbnailAsPNG].  Each early [return] of the
    source is the end of a branch here. *)
Definition ExportThumbnailAsPNG (ObjectPath OutputPath : FString) : Call E unit :=
  if FStr.IsEmpty ObjectPath || FStr.IsEmpty OutputPath then
    UE_LOG E Warning "Invalid input parameters!"
  else
    (* Use JPG extension *)
    let NewOutputPath := FPaths.ChangeExtension OutputPath ".jpg" in
    (* Load the asset *)
    AssetData <- GetAssetByObjectPath E ObjectPath ;;
    MyObject <- GetAsset E AssetData ;;
    match MyObject with
    | None => UE_LOG E Warning ("Asset not found at path: " ++ ObjectPath)
    | Some MyObject =>
        (* Render the thumbnail *)
        let ThumbnailSize := 256%Z in
        ObjectThumbnail <-
          RenderThumbnail E MyObject ThumbnailSize ThumbnailSize AlwaysFlush
            EmptyThumbnail ;;
        if (Num (GetUncompressedImageData ObjectThumbnail) =? 0)%Z then
          UE_LOG E Warning ("No thumbnail data for asset: " ++ ObjectPath)
        else
          (* Create JPG image *)
          ImageWrapper <- CreateImageWrapper E JPEG ;;
          match ImageWrapper with
          | None => UE_LOG E Warning "Failed to create ImageWrapper!"
          | Some ImageWrapper =>
              (* Set image data and compress (high quality) *)
              ImageWrapper <-
                SetRaw E ImageWrapper
                  (GetUncompressedImageData ObjectThumbnail)
                  (Num (GetUncompressedImageData ObjectThumbnail))
                  (GetImageWidth ObjectThumbnail)
                  (GetImageHeight ObjectThumbnail)
                  BGRA 8 ;;
              CompressedByteArray <- GetCompressed E ImageWrapper 95 ;;
              if (Num CompressedByteArray =? 0)%Z then
                UE_LOG E Warning "Failed to compress image data!"
              else
                (* Create directory if needed *)
                let OutputDirectory := FPaths.GetPath NewOutputPath in
                Exists <- DirectoryExists E OutputDirectory ;;
                (if negb Exists
                 then MakeDirectory E OutputDirectory true ;; ret tt
                 else ret tt) ;;
                (* Save file *)
                Saved <- SaveArrayToFile E CompressedByteArray NewOutputPath ;;
                if Saved then
                  UE_LOG E Log ("Exported thumbnail to: " ++ NewOutputPath)
                else
                  UE_LOG E Warning ("Failed to save thumbnail to: " ++ NewOutputPath)
          end
    end.

(** The engine calls one invocation makes, and the file system it leaves,
    when started on file system [d]. *)
Definition ExportCalls (ObjectPath OutputPath : FString) (d : FileSystem E)
    : list (EngineCall E) :=
  journal (snd (ExportThumbnailAsPNG ObjectPath OutputPath (mkWorld d []))).

Definition ExportDisk (ObjectPath OutputPath : FString) (d : FileSystem E)
    : FileSystem E :=
  disk (snd (ExportThumbnailAsPNG ObjectPath OutputPath (mkWorld d []))).

End ThumbnailExporter.

Arguments ExportCalls E ObjectPath OutputPath d : simpl never.
Arguments ExportDisk E ObjectPath OutputPath d : simpl never.

(** ** Reading a journal *)

Section Journal.

Variable E : Engine.

Definition IsLog (c : EngineCall E) : bool :=
  match c with CallLog _ _ => true | _ => false end.

Definition IsWarning (c : EngineCall E) : bool :=
  match c with CallLog Warning _ => true | _ => false end.

Definition IsSuccessLog (c : EngineCall E) : bool :=
  match c with CallLog Log _ => true | _ => false end.

Definition IsFileSystemCall (c : EngineCall E) : bool :=
  match c with
  | CallDirectoryExists _ | CallMakeDirectory _ _ | CallSaveArrayToFile _ _ => true
  | _ => false
  end.

Definition IsWrite (c : EngineCall E) : bool :=
  match c with CallSaveArrayToFile _ _ => true | _ => false end.

(** The export succeeded: the routine reached its one [Log]-verbosity line
    (ThumbnailExporter.cpp line 111). *)
Definition Succeeded (t : list (EngineCall E)) : Prop :=
  existsb IsSuccessLog t = true.

(** The export failed: the routine logged a warning. *)
Definition Failed (t : list (EngineCall E)) : Prop :=
  existsb IsWarning t = true.

End Journal.

Arguments IsLog {E}.
Arguments IsWarning {E}.
Arguments IsSuccessLog {E}.
Arguments IsFileSystemCall {E}.
Arguments IsWrite {E}.
Arguments Succeeded {E}.
Arguments Failed {E}.

(** ** A small editor to run the routine in

    A concrete engine: assets are known by their object path, the disk is a
    list of directories and a list of files, the renderer and the write
    protection of file names are chosen by the configuration. *)
Module Editor.

Record Disk : Set := mkDisk {
  Directories : list FString;
  Files : list (FString * list byte)
}.

Record Config : Type := mkConfig {
  Assets : list FString;
  ThumbnailOf : Z -> Z -> FObjectThumbnail;
  Codecs : EImageFormat -> bool;
  WriteProtected : FString -> bool
}.

Definition Knows (names : list FString) (p : FString) : bool :=
  existsb (String.eqb p) names.

Definition engine (cfg : Config) : Engine := {|
  UObject := FString;
  FAssetData := option FString;
  FileSystem := Disk;
  RegistryLookup := fun p => if Knows (Assets cfg) p then Some p else None;
  AssetOf := fun a => a;
  Render := fun _ w h _ _ => ThumbnailOf cfg w h;
  HasImageWrapper := Codecs cfg;
  Compress := fun _ raw _ =>
    match RawData raw with
    | [] => []
    | _ :: _ => [xff; xd8; xff; xd9]
    end;
  FsDirectoryExists := fun d p => Knows (Directories d) p;
  FsMakeDirectory := fun d p _ => (true, mkDisk (p :: Directories d) (Files d));
  FsSaveArrayToFile := fun d bytes p =>
    if WriteProtected cfg p then (false, d)
    else (true, mkDisk (Directories d) ((p, bytes) :: Files d))
|}.

(** One BGRA pixel. *)
Definition Pixel : list byte := [x10; x20; x30; xff].

(** The renderer stores the requested size, as the engine's does. *)
Definition Sized (w h : Z) : FObjectThumbnail := mkThumbnail w h Pixel.

(** A renderer that reports a size of its own. *)
Definition Half (_ _ : Z) : FObjectThumbnail := mkThumbnail 128 64 Pixel.

Definition Rock : FString := "/Game/Props/Rock.Rock".

Definition standard : Config :=
  mkConfig [Rock] Sized (fun _ => true) (fun _ => false).

Definition halfSized : Config :=
  mkConfig [Rock] Half (fun _ => true) (fun _ => false).

Definition locked : Config :=
  mkConfig [Rock] Sized (fun _ => true) (fun _ => true).

Definition emptyDisk : Disk := mkDisk [] [].

(** The editor's world on a disk, with the given journal. *)
Definition world (cfg : Config) (d : Disk) (j : list (EngineCall (engine cfg)))
    : World (engine cfg) :=
  @mkWorld (engine cfg) d j.

End Editor.

(** ** The seven runs of the export routine

    What one invocation does, branch by branch: the conditions under which
    the branch is taken, the engine calls it makes and the file system it
    leaves. *)

Section Runs.

Variable E : Engine.
Variables ObjectPath OutputPath : FString.
Variable d : FileSystem E.

Definition NewOutputPath : FString := FPaths.ChangeExtension OutputPath ".jpg".

Definition OutputDirectory : FString := FPaths.GetPath NewOutputPath.

(** The thumbnail the renderer leaves for an object (lines 55-65). *)
Definition ThumbnailFor (obj : UObject E) : FObjectThumbnail :=
  Render E obj 256 256 AlwaysFlush EmptyThumbnail.

(** The raw image handed to the image wrapper (lines 84-91). *)
Definition RawOf (t : FObjectThumbnail) : FRawImage :=
  mkRaw (GetUncompressedImageData t) (Num (GetUncompressedImageData t))
        (GetImageWidth t) (GetImageHeight t) BGRA 8.

(** The compressed bytes (line 93). *)
Definition CompressedOf (t : FObjectThumbnail) : list byte :=
  Compress E JPEG (RawOf t) 95.

(** The calls every run past the encoder makes, up to the compression. *)
Definition EncodeCalls (obj : UObject E) : list (EngineCall E) :=
  [CallGetAssetByObjectPath ObjectPath;
   CallGetAsset (RegistryLookup E ObjectPath);
   CallRenderThumbnail obj 256 256 AlwaysFlush;
   CallCreateImageWrapper JPEG;
   CallSetRaw (RawOf (ThumbnailFor obj));
   CallGetCompressed 95].

(** Lines 101-106: the directory test and, if absent, its creation. *)
Definition DirectoryCalls : list (EngineCall E) :=
  if FsDirectoryExists E d OutputDirectory
  then [CallDirectoryExists OutputDirectory]
  else [CallDirectoryExists OutputDirectory; CallMakeDirectory OutputDirectory true].

Definition DiskBeforeWrite : FileSystem E :=
  if FsDirectoryExists E d OutputDirectory
  then d
  else snd (FsMakeDirectory E d OutputDirectory true).

Inductive ExportRun : list (EngineCall E) -> FileSystem E -> Prop :=
| RunInvalidInput :
    FStr.IsEmpty ObjectPath || FStr.IsEmpty OutputPath = true ->
    ExportRun [CallLog Warning "Invalid input parameters!"] d
| RunAssetNotFound :
    FStr.IsEmpty ObjectPath || FStr.IsEmpty OutputPath = false ->
    AssetOf E (RegistryLookup E ObjectPath) = None ->
    ExportRun
      [CallGetAssetByObjectPath ObjectPath;
       CallGetAsset (RegistryLookup E ObjectPath);
       CallLog Warning ("Asset not found at path: " ++ ObjectPath)] d
| RunNoThumbnailData obj :
    FStr.IsEmpty ObjectPath || FStr.IsEmpty OutputPath = false ->
    AssetOf E (RegistryLookup E ObjectPath) = Some obj ->
    Num (GetUncompressedImageData (ThumbnailFor obj)) = 0%Z ->
    ExportRun
      [CallGetAssetByObjectPath ObjectPath;
       CallGetAsset (RegistryLookup E ObjectPath);
       CallRenderThumbnail obj 256 256 AlwaysFlush;
       CallLog Warning ("No thumbnail data for asset: " ++ ObjectPath)] d
| RunNoImageWrapper obj :
    FStr.IsEmpty ObjectPath || FStr.IsEmpty OutputPath = false ->
    AssetOf E (RegistryLookup E ObjectPath) = Some obj ->
    Num (GetUncompressedImageData (ThumbnailFor obj)) <> 0%Z ->
    HasImageWrapper E JPEG = false ->
    ExportRun
      [CallGetAssetByObjectPath ObjectPath;
       CallGetAsset (RegistryLookup E ObjectPath);
       CallRenderThumbnail obj 256 256 AlwaysFlush;
       CallCreateImageWrapper JPEG;
       CallLog Warning "Failed to create ImageWrapper!"] d
| RunCompressionFailed obj :
    FStr.IsEmpty ObjectPath || FStr.IsEmpty OutputPath = false ->
    AssetOf E (RegistryLookup E ObjectPath) = Some obj ->
    Num (GetUncompressedImageData (ThumbnailFor obj)) <> 0%Z ->
    HasImageWrapper E JPEG = true ->
    Num (CompressedOf (ThumbnailFor obj)) = 0%Z ->
    ExportRun
      (EncodeCalls obj ++ [CallLog Warning "Failed to compress image data!"]) d
| RunSaveFailed obj :
    FStr.IsEmpty ObjectPath || FStr.IsEmpty OutputPath = false ->
    AssetOf E (RegistryLookup E ObjectPath) = Some obj ->
    Num (GetUncompressedImageData (ThumbnailFor obj)) <> 0%Z ->
    HasImageWrapper E JPEG = true ->
    Num (CompressedOf (ThumbnailFor obj)) <> 0%Z ->
    fst (FsSaveArrayToFile E DiskBeforeWrite
           (CompressedOf (ThumbnailFor obj)) NewOutputPath) = false ->
    ExportRun
      (EncodeCalls obj ++ DirectoryCalls ++
       [CallSaveArrayToFile (CompressedOf (ThumbnailFor obj)) NewOutputPath;
        CallLog Warning ("Failed to save thumbnail to: " ++ NewOutputPath)])
      (snd (FsSaveArrayToFile E DiskBeforeWrite
              (CompressedOf (ThumbnailFor obj)) NewOutputPath))
| RunExported obj :
    FStr.IsEmpty ObjectPath || FStr.IsEmpty OutputPath = false ->
    AssetOf E (RegistryLookup E ObjectPath) = Some obj ->
    Num (GetUncompressedImageData (ThumbnailFor obj)) <> 0%Z ->
    HasImageWrapper E JPEG = true ->
    Num (CompressedOf (ThumbnailFor obj)) <> 0%Z ->
    fst (FsSaveArrayToFile E DiskBeforeWrite
           (CompressedOf (ThumbnailFor obj)) NewOutputPath) = true ->
    ExportRun
      (EncodeCalls obj ++ DirectoryCalls ++
       [CallSaveArrayToFile (CompressedOf (ThumbnailFor obj)) NewOutputPath;
        CallLog Log ("Exported thumbnail to: " ++ NewOutputPath)])
      (snd (FsSaveArrayToFile E DiskBeforeWrite
              (CompressedOf (ThumbnailFor obj)) NewOutputPath)).

End Runs.

Arguments RawOf t : simpl never.

(** ** Framing

    A call is framed when the journal it is started with is kept as a prefix
    and has no influence on what the call does. *)
Definition Framed (E : Engine) {A : Type} (m : Call E A) : Prop :=
  forall (d : FileSystem E) (j : list (EngineCall E)),
    m (mkWorld d j) =
    (fst (m (mkWorld d [])),
     mkWorld (disk (snd (m (mkWorld d []))))
             (j ++ journal (snd (m (mkWorld d []))))%list).

(** ** Engine contracts *)

(** Saving a file, whether it succeeds or not, removes no directory. *)
Definition WritesKeepDirectories (E : Engine) : Prop :=
  forall (d : FileSystem E) (bytes : list byte) (p x : FString),
    FsDirectoryExists E d x = true ->
    FsDirectoryExists E (snd (FsSaveArrayToFile E d bytes p)) x = true.

(** [IFileManager::MakeDirectory(Path, true)] leaves the directory in
    place. *)
Definition MakeDirectoryCreates (E : Engine) : Prop :=
  forall (d : FileSystem E) (p : FString),
    FsDirectoryExists E (snd (FsMakeDirectory E d p true)) p = true.

(** ** The order of the engine calls

    The kind of a call, and the order in which the source makes the calls of
    one invocation (lines 44-109), with or without the directory creation of
    line 105. *)
Inductive CallKind : Set :=
| KLog | KGetAssetByObjectPath | KGetAsset | KRenderThumbnail
| KCreateImageWrapper | KSetRaw | KGetCompressed
| KDirectoryExists | KMakeDirectory | KSaveArrayToFile.

Definition KindOf {E : Engine} (c : EngineCall E) : CallKind :=
  match c with
  | CallLog _ _ => KLog
  | CallGetAssetByObjectPath _ => KGetAssetByObjectPath
  | CallGetAsset _ => KGetAsset
  | CallRenderThumbnail _ _ _ _ => KRenderThumbnail
  | CallCreateImageWrapper _ => KCreateImageWrapper
  | CallSetRaw _ => KSetRaw
  | CallGetCompressed _ => KGetCompressed
  | CallDirectoryExists _ => KDirectoryExists
  | CallMakeDirectory _ _ => KMakeDirectory
  | CallSaveArrayToFile _ _ => KSaveArrayToFile
  end.

Definition Pipeline (makeDirectory : bool) : list CallKind :=
  ([KGetAssetByObjectPath; KGetAsset; KRenderThumbnail; KCreateImageWrapper;
    KSetRaw; KGetCompressed; KDirectoryExists] ++
   (if makeDirectory then [KMakeDirectory] else []) ++
   [KSaveArrayToFile])%list.

(** ** More editors to run the routine in *)
Module Bench.

(** A renderer that leaves the thumbnail without pixel data. *)
Definition Blank (w h : Z) : FObjectThumbnail := mkThumbnail w h [].

Definition blank : Editor.Config :=
  Editor.mkConfig [Editor.Rock] Blank (fun _ => true) (fun _ => false).

(** An editor with every image wrapper but the JPEG one. *)
Definition noJpeg : Editor.Config :=
  Editor.mkConfig [Editor.Rock] Editor.Sized
    (fun f => match f with JPEG => false | _ => true end) (fun _ => false).

(** The editor of a configuration, with an image wrapper whose compression
    yields no bytes. *)
Definition mute (cfg : Editor.Config) : Engine := {|
  UObject := FString;
  FAssetData := option FString;
  FileSystem := Editor.Disk;
  RegistryLookup := RegistryLookup (Editor.engine cfg);
  AssetOf := AssetOf (Editor.engine cfg);
  Render := Render (Editor.engine cfg);
  HasImageWrapper := HasImageWrapper (Editor.engine cfg);
  Compress := fun _ _ _ => [];
  FsDirectoryExists := FsDirectoryExists (Editor.engine cfg);
  FsMakeDirectory := FsMakeDirectory (Editor.engine cfg);
  FsSaveArrayToFile := FsSaveArrayToFile (Editor.engine cfg)
|}.

(** The editor of a configuration on a volume that refuses every change:
    [MakeDirectory] and [SaveArrayToFile] both fail and leave the disk as it
    was. *)
Definition readOnly (cfg : Editor.Config) : Engine := {|
  UObject := FString;
  FAssetData := option FString;
  FileSystem := Editor.Disk;
  RegistryLookup := RegistryLookup (Editor.engine cfg);
  AssetOf := AssetOf (Editor.engine cfg);
  Render := Render (Editor.engine cfg);
  HasImageWrapper := HasImageWrapper (Editor.engine cfg);
  Compress := Compress (Editor.engine cfg);
  FsDirectoryExists := FsDirectoryExists (Editor.engine cfg);
  FsMakeDirectory := fun d _ _ => (false, d);
  FsSaveArrayToFile := fun d _ _ => (false, d)
|}.

(** A disk that holds the directory [C:/Thumbs]. *)
Definition thumbsDisk : Editor.Disk := Editor.mkDisk ["C:/Thumbs"%string] [].

End Bench.

(** ** The routine takes exactly one of the seven runs *)

Section RunLemmas.

Variable E : Engine.

Lemma export_run (ObjectPath OutputPath : FString) (d : FileSystem E) :
  ExportRun E ObjectPath OutputPath d
    (ExportCalls E ObjectPath OutputPath d)
    (ExportDisk E ObjectPath OutputPath d).
Proof.
  unfold ExportCalls, ExportDisk, ExportThumbnailAsPNG.
  destruct (FStr.IsEmpty ObjectPath || FStr.IsEmpty OutputPath) eqn:Hin.
  { cbn. now apply RunInvalidInput. }
  cbn.
  destruct (AssetOf E (RegistryLookup E ObjectPath)) as [obj|] eqn:Hobj.
  2:{ cbn. now apply RunAssetNotFound. }
  cbn.
  destruct (Num (GetUncompressedImageData (Render E obj 256 256 AlwaysFlush EmptyThumbnail)) =? 0)%Z
    eqn:Hdata.
  { cbn. apply Z.eqb_eq in Hdata. now apply RunNoThumbnailData. }
  apply Z.eqb_neq in Hdata. cbn.
  destruct (HasImageWrapper E JPEG) eqn:Hwrap.
  2:{ cbn. now apply RunNoImageWrapper. }
  cbn.
  change (Compress E JPEG _ 95)
    with (CompressedOf E (ThumbnailFor E obj)).
  destruct (Num (CompressedOf E (ThumbnailFor E obj)) =? 0)%Z eqn:Hcomp.
  { cbn. apply Z.eqb_eq in Hcomp.
    now apply (RunCompressionFailed E ObjectPath OutputPath d obj). }
  apply Z.eqb_neq in Hcomp.
  unfold bind, DirectoryExists, MakeDirectory, SaveArrayToFile, ret, UE_LOG, noted.
  cbn.
  pose proof (RunSaveFailed E ObjectPath OutputPath d obj Hin Hobj Hdata Hwrap Hcomp) as Hfail.
  pose proof (RunExported E ObjectPath OutputPath d obj Hin Hobj Hdata Hwrap Hcomp) as Hok.
  unfold DiskBeforeWrite, DirectoryCalls, OutputDirectory, NewOutputPath in Hfail, Hok.
  destruct (FsDirectoryExists E d (FPaths.GetPath (FPaths.ChangeExtension OutputPath ".jpg")))
    eqn:Hdir; cbn.
  - destruct (FsSaveArrayToFile E d (CompressedOf E (ThumbnailFor E obj))
                (FPaths.ChangeExtension OutputPath ".jpg")) as [[|] d'] eqn:Hsave; cbn in *.
    + now apply Hok.
    + now apply Hfail.
  - destruct (FsMakeDirectory E d (FPaths.GetPath (FPaths.ChangeExtension OutputPath ".jpg")) true)
      as [okd d1] eqn:Hmk; cbn in *.
    destruct (FsSaveArrayToFile E d1 (CompressedOf E (ThumbnailFor E obj))
                (FPaths.ChangeExtension OutputPath ".jpg")) as [[|] d'] eqn:Hsave; cbn in *.
    + now apply Hok.
    + now apply Hfail.
Qed.

(** The seven runs exclude one another: the conditions of a run determine
    its calls and the file system it leaves. *)
Lemma export_run_functional (ObjectPath OutputPath : FString) (d : FileSystem E)
    (t1 t2 : list (EngineCall E)) (d1 d2 : FileSystem E) :
  ExportRun E ObjectPath OutputPath d t1 d1 ->
  ExportRun E ObjectPath OutputPath d t2 d2 ->
  t1 = t2 /\ d1 = d2.
Proof.
  intros R1 R2.
  destruct R1; destruct R2;
    repeat match goal with
           | H1 : AssetOf E _ = Some ?a, H2 : AssetOf E _ = Some ?b |- _ =>
               rewrite H1 in H2; inversion H2; subst; clear H2
           end;
    try congruence; try contradiction; split; reflexivity.
Qed.

(** So a run whose conditions hold is the one the routine takes. *)
Lemma run_is_export (ObjectPath OutputPath : FString) (d : FileSystem E)
    (t : list (EngineCall E)) (d' : FileSystem E) :
  ExportRun E ObjectPath OutputPath d t d' ->
  ExportCalls E ObjectPath OutputPath d = t /\
  ExportDisk E ObjectPath OutputPath d = d'.
Proof.
  intros R. exact (export_run_functional _ _ _ _ _ _ _ (export_run _ _ _) R).
Qed.

End RunLemmas.

(** ** Facts about the engine strings *)

Section StringFacts.

Import FStr.

Lemma Left_length_app (a b : FString) : Left (Len a) (a ++ b) = a.
Proof. induction a as [|c a IH]; cbn; [now destruct b | now rewrite IH]. Qed.

Lemma Left_app_le (n : nat) (a b : FString) :
  n <= Len a -> Left n (a ++ b) = Left n a.
Proof.
  revert n; induction a as [|c a IH]; intros [|n] Hn; cbn in *; try reflexivity.
  - lia.
  - rewrite IH by lia. reflexivity.
Qed.

Lemma Left_all (n : nat) (s : FString) : Len s <= n -> Left n s = s.
Proof.
  revert n; induction s as [|c s IH]; intros [|n] Hn; cbn in *; try reflexivity.
  - lia.
  - rewrite IH by lia. reflexivity.
Qed.

Lemma RightChop_app_le (n : nat) (a b : FString) :
  n <= Len a -> RightChop n (a ++ b) = RightChop n a ++ b.
Proof.
  revert n; induction a as [|c a IH]; intros [|n] Hn; cbn in *; try reflexivity.
  - lia.
  - apply IH. lia.
Qed.

Lemma RightChop_length (n : nat) (s : FString) : Len (RightChop n s) = Len s - n.
Proof.
  revert n; induction s as [|c s IH]; intros [|n]; cbn; try reflexivity.
  apply IH.
Qed.

Lemma Len_app (a b : FString) : Len (a ++ b) = Len a + Len b.
Proof. induction a as [|c a IH]; cbn; [reflexivity | now rewrite IH]. Qed.

Lemma FindLast_app (P : ascii -> bool) (a b : FString) :
  FindLastCharByPredicate P (a ++ b) =
  match FindLastCharByPredicate P b with
  | Some i => Some (Len a + i)
  | None => FindLastCharByPredicate P a
  end.
Proof.
  induction a as [|c a IH]; cbn.
  - now destruct (FindLastCharByPredicate P b).
  - rewrite IH. now destruct (FindLastCharByPredicate P b).
Qed.

Lemma FindLast_lt (P : ascii -> bool) (s : FString) (i : nat) :
  FindLastCharByPredicate P s = Some i -> i < Len s.
Proof.
  revert i; induction s as [|c s IH]; cbn; intros i H; [discriminate|].
  destruct (FindLastCharByPredicate P s) as [j|].
  - inversion H; subst. specialize (IH j eq_refl). lia.
  - destruct (P c); inversion H; subst. lia.
Qed.

(** A found index splits the string at the last character satisfying the
    predicate. *)
Lemma FindLast_split (P : ascii -> bool) (s : FString) (i : nat) :
  FindLastCharByPredicate P s = Some i ->
  exists c rest,
    s = Left i s ++ String c rest /\ Len (Left i s) = i /\
    P c = true /\ FindLastCharByPredicate P rest = None.
Proof.
  revert i; induction s as [|c s IH]; cbn; intros i H; [discriminate|].
  destruct (FindLastCharByPredicate P s) as [j|] eqn:Hs.
  - inversion H; subst. destruct (IH j eq_refl) as (c' & rest & Heq & Hlen & Hc & Hr).
    exists c', rest. cbn. rewrite <- Heq, Hlen. auto.
  - destruct (P c) eqn:Hc; inversion H; subst.
    exists c, s. cbn. auto.
Qed.

(** Where the predicate is found nowhere, its negation is found last at the
    last character. *)
Lemma FindLast_negb_none (P : ascii -> bool) (c : ascii) (s : FString) :
  FindLastCharByPredicate P (String c s) = None ->
  FindLastCharByPredicate (fun x => negb (P x)) (String c s) = Some (Len s).
Proof.
  revert c; induction s as [|c' s IH]; intros c H.
  - cbn in *. destruct (P c); [discriminate | reflexivity].
  - change (FindLastCharByPredicate P (String c (String c' s)))
      with (match FindLastCharByPredicate P (String c' s) with
            | Some i => Some (S i)
            | None => if P c then Some 0 else None
            end) in H.
    destruct (FindLastCharByPredicate P (String c' s)) eqn:Hs; [discriminate|].
    change (FindLastCharByPredicate (fun x => negb (P x)) (String c (String c' s)))
      with (match FindLastCharByPredicate (fun x => negb (P x)) (String c' s) with
            | Some i => Some (S i)
            | None => if negb (P c) then Some 0 else None
            end).
    rewrite (IH c' Hs). reflexivity.
Qed.

End StringFacts.

(** ** Facts about the engine paths *)

Section PathFacts.

Import FStr FPaths.

(** A path whose file name has an extension splits into the part before the
    extension's dot and an extension holding no dot and no separator. *)
Lemma ExtensionPos_split (p : FString) (pos : nat) :
  ExtensionPos p = Some pos ->
  exists rest,
    p = Left pos p ++ String "." rest /\ Len (Left pos p) = pos /\
    FindLastChar "." rest = None /\
    FindLastCharByPredicate IsSlashOrBackslash (String "." rest) = None.
Proof.
  unfold ExtensionPos, FindLastChar.
  destruct (FindLastCharByPredicate (Ascii.eqb ".") p) as [i|] eqn:Hdot; [|discriminate].
  destruct (FindLast_split _ _ _ Hdot) as (c & rest & Heq & Hlen & Hc & Hrest).
  apply Ascii.eqb_eq in Hc; subst c.
  intros H.
  assert (Hpos : pos = i).
  { destruct (FindLastCharByPredicate IsSlashOrBackslash p) as [e|];
      [destruct (i <? e)%nat |]; congruence. }
  subst pos. exists rest. repeat split; auto.
  destruct (FindLastCharByPredicate IsSlashOrBackslash (String "." rest)) as [k|] eqn:Hk;
    [|reflexivity].
  exfalso.
  rewrite Heq, FindLast_app, Hk, Hlen in H.
  destruct (i <? i + k)%nat eqn:Hlt; [discriminate|].
  apply Nat.ltb_ge in Hlt. assert (k = 0) by lia. subst k.
  cbn in Hk.
  destruct (FindLastCharByPredicate IsSlashOrBackslash rest); discriminate.
Qed.

Lemma ChangeExtension_some (p : FString) (pos : nat) :
  ExtensionPos p = Some pos -> ChangeExtension p ".jpg" = Left pos p ++ ".jpg".
Proof. unfold ChangeExtension. now intros ->. Qed.

Lemma ChangeExtension_none (p ext : FString) :
  ExtensionPos p = None -> ChangeExtension p ext = p.
Proof. unfold ChangeExtension. now intros ->. Qed.

Lemma GetPath_stem (a t : FString) :
  FindLastCharByPredicate IsSlashOrBackslash t = None ->
  GetPath (a ++ t) = GetPath a.
Proof.
  intros Ht. unfold GetPath. rewrite FindLast_app, Ht.
  destruct (FindLastCharByPredicate IsSlashOrBackslash a) as [k|] eqn:Hk; [|reflexivity].
  apply Left_app_le. apply FindLast_lt in Hk. lia.
Qed.

(** The directory of the path is not touched by the change of extension. *)
Lemma GetPath_ChangeExtension (p : FString) :
  GetPath (ChangeExtension p ".jpg") = GetPath p.
Proof.
  destruct (ExtensionPos p) as [pos|] eqn:Hpos.
  - rewrite (ChangeExtension_some _ _ Hpos).
    destruct (ExtensionPos_split _ _ Hpos) as (rest & Heq & _ & _ & Hsl).
    rewrite Heq at 2. now rewrite !GetPath_stem.
  - now rewrite ChangeExtension_none.
Qed.

Lemma GetCleanFilename_stem (a : FString) (c : ascii) (t : FString) :
  FindLastCharByPredicate IsSlashOrBackslash (String c t) = None ->
  GetCleanFilename (a ++ String c t) =
  RightChop (match FindLastCharByPredicate IsSlashOrBackslash a with
             | Some i => S i
             | None => 0
             end) a ++ String c t.
Proof.
  intros Ht. unfold GetCleanFilename, IsNotSlashOrBackslash.
  rewrite FindLast_app, (FindLast_negb_none _ _ _ Ht).
  replace (S (Len a + Len t)) with (Len (a ++ String c t))
    by (rewrite Len_app; cbn; lia).
  rewrite Left_all by lia.
  rewrite FindLast_app, Ht.
  set (k := match FindLastCharByPredicate IsSlashOrBackslash a with
            | Some i => S i
            | None => 0
            end).
  assert (Hk : k <= Len a).
  { subst k. destruct (FindLastCharByPredicate IsSlashOrBackslash a) eqn:H; [|lia].
    apply FindLast_lt in H. lia. }
  unfold Mid. rewrite Left_all by (rewrite RightChop_length; lia).
  now apply RightChop_app_le.
Qed.

Lemma FindLastChar_stem (a rest : FString) :
  FindLastChar "." rest = None ->
  FindLastChar "." (a ++ String "." rest) = Some (Len a).
Proof.
  unfold FindLastChar. intros H. rewrite FindLast_app. cbn. rewrite H. cbn.
  f_equal. lia.
Qed.

Lemma GetBaseFilename_stem (a rest : FString) (bRemovePath : bool) :
  FindLastChar "." rest = None ->
  FindLastCharByPredicate IsSlashOrBackslash (String "." rest) = None ->
  GetBaseFilename (a ++ String "." rest) bRemovePath =
  if bRemovePath
  then RightChop (match FindLastCharByPredicate IsSlashOrBackslash a with
                  | Some i => S i
                  | None => 0
                  end) a
  else a.
Proof.
  intros Hdot Hsl. unfold GetBaseFilename. destruct bRemovePath.
  - rewrite (GetCleanFilename_stem _ _ _ Hsl), (FindLastChar_stem _ _ Hdot).
    apply Left_length_app.
  - rewrite (FindLastChar_stem _ _ Hdot), FindLast_app, Hsl.
    destruct (FindLastCharByPredicate IsSlashOrBackslash a) as [k|] eqn:Hk.
    + apply FindLast_lt in Hk. apply Nat.ltb_lt in Hk. rewrite Hk.
      apply Left_length_app.
    + apply Left_length_app.
Qed.

(** Nor is the base file name, with or without its directory. *)
Lemma GetBaseFilename_ChangeExtension (p : FString) (bRemovePath : bool) :
  GetBaseFilename (ChangeExtension p ".jpg") bRemovePath = GetBaseFilename p bRemovePath.
Proof.
  destruct (ExtensionPos p) as [pos|] eqn:Hpos.
  - rewrite (ChangeExtension_some _ _ Hpos).
    destruct (ExtensionPos_split _ _ Hpos) as (rest & Heq & _ & Hdot & Hsl).
    rewrite Heq at 2.
    rewrite (GetBaseFilename_stem _ rest _ Hdot Hsl).
    now rewrite (GetBaseFilename_stem _ "jpg" bRemovePath).
  - now rewrite ChangeExtension_none.
Qed.

Lemma EndsWith_app (a ext : FString) : EndsWith ext (a ++ ext) = true.
Proof.
  unfold EndsWith. rewrite Len_app.
  replace (Len a + Len ext - Len ext) with (Len a) by lia.
  rewrite RightChop_app_le by lia.
  replace (RightChop (Len a) a) with EmptyString.
  - cbn. rewrite String.eqb_refl. cbn. apply Nat.leb_le. lia.
  - clear. induction a as [|c a IH]; cbn; auto.
Qed.

(** With an extension to change, the new path ends in [.jpg]. *)
Lemma ChangeExtension_ends_with_jpg (p : FString) (pos : nat) :
  ExtensionPos p = Some pos -> EndsWith ".jpg" (ChangeExtension p ".jpg") = true.
Proof. intros H. rewrite (ChangeExtension_some _ _ H). apply EndsWith_app. Qed.

End PathFacts.

(** ** The journal a call starts with is only extended *)

Open Scope list_scope.

Section Frame.

Variable E : Engine.

Lemma Framed_ret {A : Type} (a : A) : Framed E (ret a).
Proof. intros d j. cbn. now rewrite app_nil_r. Qed.

Lemma Framed_noted (c : EngineCall E) : Framed E (noted c).
Proof. intros d j. reflexivity. Qed.

Lemma Framed_bind {A B : Type} (m : Call E A) (k : A -> Call E B) :
  Framed E m -> (forall a, Framed E (k a)) -> Framed E (bind m k).
Proof.
  intros Hm Hk d j. unfold bind.
  rewrite (Hm d j).
  destruct (m (mkWorld d [])) as [a [d1 t1]]; cbn.
  rewrite (Hk a d1 (j ++ t1)), (Hk a d1 t1).
  destruct (k a (mkWorld d1 [])) as [b [d2 t2]]; cbn.
  now rewrite app_assoc.
Qed.

Lemma Framed_DirectoryExists (p : FString) : Framed E (DirectoryExists E p).
Proof. intros d j. reflexivity. Qed.

Lemma Framed_MakeDirectory (p : FString) (tree : bool) : Framed E (MakeDirectory E p tree).
Proof.
  intros d j. unfold MakeDirectory; cbn.
  now destruct (FsMakeDirectory E d p tree).
Qed.

Lemma Framed_SaveArrayToFile (b : list byte) (p : FString) :
  Framed E (SaveArrayToFile E b p).
Proof.
  intros d j. unfold SaveArrayToFile; cbn.
  now destruct (FsSaveArrayToFile E d b p).
Qed.

Ltac framed :=
  repeat first
    [ apply Framed_ret
    | apply Framed_noted
    | apply Framed_DirectoryExists
    | apply Framed_MakeDirectory
    | apply Framed_SaveArrayToFile
    | apply Framed_bind; [| intro]
    | match goal with
      | |- Framed _ (if ?b then _ else _) => destruct b
      | |- Framed _ (match ?x with Some _ => _ | None => _ end) => destruct x
      end ].

Lemma Framed_ExportThumbnailAsPNG (ObjectPath OutputPath : FString) :
  Framed E (ExportThumbnailAsPNG E ObjectPath OutputPath).
Proof.
  unfold ExportThumbnailAsPNG, UE_LOG, GetAssetByObjectPath, GetAsset,
    RenderThumbnail, CreateImageWrapper, SetRaw, GetCompressed.
  framed.
Qed.

(** Started on any world, the routine returns nothing, appends its calls to
    the journal and leaves the file system [ExportDisk] computes. *)
Lemma export_from (ObjectPath OutputPath : FString) (w : World E) :
  ExportThumbnailAsPNG E ObjectPath OutputPath w =
  (tt, mkWorld (ExportDisk E ObjectPath OutputPath (disk w))
               (journal w ++ ExportCalls E ObjectPath OutputPath (disk w))).
Proof.
  destruct w as [d j]. rewrite Framed_ExportThumbnailAsPNG.
  unfold ExportDisk, ExportCalls. cbn [disk journal].
  now destruct (fst (ExportThumbnailAsPNG E ObjectPath OutputPath (mkWorld d []))).
Qed.

End Frame.

(** ** Reading the runs *)

Section RunFacts.

Variable E : Engine.
Variables ObjectPath OutputPath : FString.
Variable d : FileSystem E.

Lemma DirectoryCalls_no_log :
  existsb IsLog (DirectoryCalls E OutputPath d) = false.
Proof. unfold DirectoryCalls. now destruct (FsDirectoryExists E d _). Qed.

Lemma DirectoryCalls_no_write :
  existsb IsWrite (DirectoryCalls E OutputPath d) = false.
Proof. unfold DirectoryCalls. now destruct (FsDirectoryExists E d _). Qed.

Lemma DirectoryCalls_in (c : EngineCall E) :
  In c (DirectoryCalls E OutputPath d) ->
  c = CallDirectoryExists (OutputDirectory OutputPath) \/ c = CallMakeDirectory (OutputDirectory OutputPath) true.
Proof.
  unfold DirectoryCalls. destruct (FsDirectoryExists E d _); cbn; intuition auto.
Qed.

(** A run that attempts the write made all the encoding calls before it, and
    the write and one log line are its last two calls. *)
Lemma write_step (t : list (EngineCall E)) (d' : FileSystem E)
    (bytes : list byte) (p : FString) :
  ExportRun E ObjectPath OutputPath d t d' ->
  In (CallSaveArrayToFile bytes p) t ->
  exists obj,
    AssetOf E (RegistryLookup E ObjectPath) = Some obj /\
    bytes = CompressedOf E (ThumbnailFor E obj) /\
    p = (NewOutputPath OutputPath) /\
    d' = snd (FsSaveArrayToFile E (DiskBeforeWrite E OutputPath d) bytes p) /\
    t = EncodeCalls E ObjectPath obj ++ DirectoryCalls E OutputPath d ++
        [CallSaveArrayToFile bytes p;
         if fst (FsSaveArrayToFile E (DiskBeforeWrite E OutputPath d) bytes p)
         then CallLog Log ("Exported thumbnail to: " ++ p)%string
         else CallLog Warning ("Failed to save thumbnail to: " ++ p)%string].
Proof.
  intros R Hin.
  assert (Henc : forall obj, ~ In (CallSaveArrayToFile bytes p) (EncodeCalls E ObjectPath obj)).
  { intros obj H. unfold EncodeCalls in H. cbn in H.
    repeat (destruct H as [H|H]; try discriminate). exact H. }
  assert (Hdir : ~ In (CallSaveArrayToFile bytes p) (DirectoryCalls E OutputPath d)).
  { intros H. apply DirectoryCalls_in in H. destruct H; discriminate. }
  destruct R as [Hi|Hi Ha|obj Hi Ha Hd|obj Hi Ha Hd Hw|obj Hi Ha Hd Hw Hc
                |obj Hi Ha Hd Hw Hc Hs|obj Hi Ha Hd Hw Hc Hs].
  - cbn in Hin. destruct Hin as [Hin|[]]. discriminate.
  - cbn in Hin. repeat (destruct Hin as [Hin|Hin]; try discriminate). contradiction.
  - cbn in Hin. repeat (destruct Hin as [Hin|Hin]; try discriminate). contradiction.
  - cbn in Hin. repeat (destruct Hin as [Hin|Hin]; try discriminate). contradiction.
  - apply in_app_or in Hin. destruct Hin as [Hin|Hin]; [now apply Henc in Hin|].
    cbn in Hin. destruct Hin as [Hin|[]]. discriminate.
  - apply in_app_or in Hin. destruct Hin as [Hin|Hin]; [now apply Henc in Hin|].
    apply in_app_or in Hin. destruct Hin as [Hin|Hin]; [now apply Hdir in Hin|].
    cbn in Hin. destruct Hin as [Hin|[Hin|[]]]; [|discriminate].
    inversion Hin; subst bytes p.
    exists obj. rewrite Hs. auto.
  - apply in_app_or in Hin. destruct Hin as [Hin|Hin]; [now apply Henc in Hin|].
    apply in_app_or in Hin. destruct Hin as [Hin|Hin]; [now apply Hdir in Hin|].
    cbn in Hin. destruct Hin as [Hin|[Hin|[]]]; [|discriminate].
    inversion Hin; subst bytes p.
    exists obj. rewrite Hs. auto.
Qed.

(** The run of a successful export. *)
Lemma exported_run (t : list (EngineCall E)) (d' : FileSystem E) :
  ExportRun E ObjectPath OutputPath d t d' ->
  Succeeded t ->
  exists obj,
    AssetOf E (RegistryLookup E ObjectPath) = Some obj /\
    fst (FsSaveArrayToFile E (DiskBeforeWrite E OutputPath d)
           (CompressedOf E (ThumbnailFor E obj)) (NewOutputPath OutputPath)) = true /\
    d' = snd (FsSaveArrayToFile E (DiskBeforeWrite E OutputPath d)
                (CompressedOf E (ThumbnailFor E obj)) (NewOutputPath OutputPath)) /\
    t = EncodeCalls E ObjectPath obj ++ DirectoryCalls E OutputPath d ++
        [CallSaveArrayToFile (CompressedOf E (ThumbnailFor E obj)) (NewOutputPath OutputPath);
         CallLog Log ("Exported thumbnail to: " ++ (NewOutputPath OutputPath))%string].
Proof.
  unfold Succeeded. intros R Hs.
  destruct R as [Hi|Hi Ha|obj Hi Ha Hd|obj Hi Ha Hd Hw|obj Hi Ha Hd Hw Hc
                |obj Hi Ha Hd Hw Hc Hsv|obj Hi Ha Hd Hw Hc Hsv].
  - discriminate.
  - discriminate.
  - discriminate.
  - discriminate.
  - rewrite existsb_app in Hs. discriminate.
  - exfalso. rewrite !existsb_app in Hs.
    unfold DirectoryCalls in Hs.
    destruct (FsDirectoryExists E d _); discriminate.
  - exists obj. auto.
Qed.

(** A run succeeded exactly when its write did. *)
Lemma succeeded_iff_written (t : list (EngineCall E)) (d' : FileSystem E) :
  ExportRun E ObjectPath OutputPath d t d' ->
  Succeeded t <->
  exists bytes p,
    In (CallSaveArrayToFile bytes p) t /\
    fst (FsSaveArrayToFile E (DiskBeforeWrite E OutputPath d) bytes p) = true.
Proof.
  intros R. split.
  - intros Hs. destruct (exported_run t d' R Hs) as (obj & _ & Hok & _ & Ht).
    exists (CompressedOf E (ThumbnailFor E obj)), (NewOutputPath OutputPath).
    split; [|exact Hok].
    rewrite Ht. apply in_or_app; right. apply in_or_app; right. left. reflexivity.
  - intros (bytes & p & Hw & Hok).
    destruct (write_step t d' bytes p R Hw) as (obj & _ & _ & _ & _ & Ht).
    rewrite Hok in Ht. unfold Succeeded. rewrite Ht, !existsb_app. cbn.
    now rewrite !orb_true_r.
Qed.

(** A run either fails or succeeds. *)
Lemma failed_iff_not_succeeded (t : list (EngineCall E)) (d' : FileSystem E) :
  ExportRun E ObjectPath OutputPath d t d' ->
  Failed t <-> ~ Succeeded t.
Proof.
  unfold Failed, Succeeded. intros R.
  destruct R as [Hi|Hi Ha|obj Hi Ha Hd|obj Hi Ha Hd Hw|obj Hi Ha Hd Hw Hc
                |obj Hi Ha Hd Hw Hc Hsv|obj Hi Ha Hd Hw Hc Hsv];
    rewrite ?existsb_app; unfold DirectoryCalls;
    try destruct (FsDirectoryExists E d (OutputDirectory OutputPath)); cbn;
    split; intros Hf; try reflexivity; try discriminate;
    try (intros Hs; discriminate).
  all: exfalso; apply Hf; reflexivity.
Qed.

(** Every run makes exactly one log call, and it is the last call. *)
Lemma one_log_line (t : list (EngineCall E)) (d' : FileSystem E) :
  ExportRun E ObjectPath OutputPath d t d' ->
  exists pre v msg,
    t = pre ++ [CallLog v msg] /\ existsb IsLog pre = false.
Proof.
  intros R. destruct R.
  - exists [], Warning, "Invalid input parameters!". auto.
  - eexists [_; _], Warning, _. cbn. auto.
  - eexists [_; _; _], Warning, _. cbn. auto.
  - eexists [_; _; _; _], Warning, _. cbn. auto.
  - eexists (EncodeCalls E ObjectPath obj), Warning, _. auto.
  - eexists (EncodeCalls E ObjectPath obj ++ DirectoryCalls E OutputPath d ++ [_]),
      Warning, _. split.
    + rewrite <- !app_assoc. reflexivity.
    + rewrite !existsb_app, DirectoryCalls_no_log. reflexivity.
  - eexists (EncodeCalls E ObjectPath obj ++ DirectoryCalls E OutputPath d ++ [_]),
      Log, _. split.
    + rewrite <- !app_assoc. reflexivity.
    + rewrite !existsb_app, DirectoryCalls_no_log. reflexivity.
Qed.

(** A run that does not attempt the write touches no file and asks the file
    manager nothing. *)
Lemma no_write_no_effect (t : list (EngineCall E)) (d' : FileSystem E) :
  ExportRun E ObjectPath OutputPath d t d' ->
  existsb IsWrite t = false ->
  d' = d /\ existsb IsFileSystemCall t = false.
Proof.
  intros R Hw. destruct R; try (split; reflexivity).
  - exfalso. rewrite !existsb_app in Hw. cbn in Hw.
    rewrite DirectoryCalls_no_write in Hw. discriminate.
  - exfalso. rewrite !existsb_app in Hw. cbn in Hw.
    rewrite DirectoryCalls_no_write in Hw. discriminate.
Qed.

End RunFacts.

Ltac in_cases H :=
  repeat match type of H with
  | In _ (_ ++ _) => apply in_app_or in H; destruct H as [H|H]
  | In _ (DirectoryCalls _ _ _) => apply DirectoryCalls_in in H; destruct H as [H|H]
  | In _ (EncodeCalls _ _ _) => unfold EncodeCalls in H
  | In _ (_ :: _) => destruct H as [H|H]
  | In _ [] => contradiction
  end.

Section CallFacts.

Variable E : Engine.
Variables ObjectPath OutputPath : FString.
Variable d : FileSystem E.

Lemma run_quality (t : list (EngineCall E)) (d' : FileSystem E) (q : Z) :
  ExportRun E ObjectPath OutputPath d t d' ->
  In (CallGetCompressed q) t -> q = 95%Z.
Proof.
  intros R H. destruct R; in_cases H; try discriminate; now inversion H.
Qed.

Lemma run_raw (t : list (EngineCall E)) (d' : FileSystem E) (raw : FRawImage) :
  ExportRun E ObjectPath OutputPath d t d' ->
  In (CallSetRaw raw) t ->
  exists obj,
    AssetOf E (RegistryLookup E ObjectPath) = Some obj /\
    raw = RawOf (ThumbnailFor E obj) /\
    In (CallRenderThumbnail obj 256 256 AlwaysFlush) t /\
    In (CallGetCompressed 95) t.
Proof.
  intros R H. destruct R; in_cases H; try discriminate.
  all: inversion H; subst raw; exists obj; repeat split; auto.
  all: apply in_or_app; left; unfold EncodeCalls; cbn; auto 10.
Qed.

Lemma encode_calls_no_file_system (obj : UObject E) :
  existsb IsFileSystemCall (EncodeCalls E ObjectPath obj) = false.
Proof. reflexivity. Qed.

End CallFacts.

(** ** Module lifecycle *)

(** C7. StartupModule and ShutdownModule each return nothing, append exactly
    one fixed log line to the journal (one on load, one on unload) and leave
    the file system as they found it. *)
Theorem lifecycle_hooks_only_log (E : Engine) (w : World E) :
  StartupModule E w =
    (tt, mkWorld (disk w)
           (journal w ++ [CallLog Warning "ThumbnailExporter Plugin Loaded Successfully!"]))
  /\
  ShutdownModule E w =
    (tt, mkWorld (disk w)
           (journal w ++ [CallLog Warning "ThumbnailExporter Plugin Unloaded!"])).
Proof. split; reflexivity. Qed.

(** ** The export routine *)

(** C3. With an empty asset path or an empty output path the routine logs the
    warning "Invalid input parameters!" and returns: that log line is its only
    engine call (no asset lookup, rendering, compression or file-system
    operation), and the file system is the one it started with, so no file is
    produced. *)
Theorem empty_input_produces_no_file (E : Engine) (ObjectPath OutputPath : FString)
    (w : World E) :
  ObjectPath = EmptyString \/ OutputPath = EmptyString ->
  ExportThumbnailAsPNG E ObjectPath OutputPath w =
    (tt, mkWorld (disk w) (journal w ++ [CallLog Warning "Invalid input parameters!"])).
Proof.
  intros [-> | ->]; unfold ExportThumbnailAsPNG.
  - reflexivity.
  - rewrite orb_true_r. reflexivity.
Qed.

Lemma empty_input_produces_no_file_witness :
  (Editor.Rock = EmptyString \/ EmptyString = EmptyString) /\
  ExportThumbnailAsPNG (Editor.engine Editor.standard) Editor.Rock EmptyString
    (Editor.world Editor.standard Editor.emptyDisk []) =
    (tt, Editor.world Editor.standard Editor.emptyDisk
           [CallLog Warning "Invalid input parameters!"]).
Proof.
  split.
  - right. reflexivity.
  - apply (empty_input_produces_no_file (Editor.engine Editor.standard)
             Editor.Rock EmptyString (Editor.world Editor.standard Editor.emptyDisk [])).
    right. reflexivity.
Defined.

(** C5. Whenever the routine reaches the compression step (it handed the raw
    image to the image wrapper), it calls GetCompressed with quality 95, no
    call of GetCompressed has another quality, whatever the asset path, the
    output path and the engine are, and the bytes of any write it attempts
    are the JPEG wrapper's output for that image at quality 95. *)
Theorem compression_quality_is_95 (E : Engine) (ObjectPath OutputPath : FString)
    (d : FileSystem E) (raw : FRawImage) :
  In (CallSetRaw raw) (ExportCalls E ObjectPath OutputPath d) ->
  In (CallGetCompressed 95) (ExportCalls E ObjectPath OutputPath d) /\
  (forall q, In (CallGetCompressed q) (ExportCalls E ObjectPath OutputPath d) -> q = 95%Z) /\
  (forall (bytes : list byte) (p : FString),
      In (CallSaveArrayToFile bytes p) (ExportCalls E ObjectPath OutputPath d) ->
      bytes = Compress E JPEG raw 95).
Proof.
  intros Hraw.
  pose proof (export_run E ObjectPath OutputPath d) as R.
  destruct (run_raw E _ _ _ _ _ raw R Hraw) as (obj & Ha & Hr & _ & Hq).
  split; [exact Hq|]. split.
  - intros q. exact (run_quality E _ _ _ _ _ q R).
  - intros bytes p Hw.
    destruct (write_step E _ _ _ _ _ bytes p R Hw) as (obj' & Ha' & Hb & _).
    rewrite Ha in Ha'. inversion Ha'; subst obj' raw. exact Hb.
Qed.

Lemma compression_quality_is_95_witness :
  In (CallSetRaw (mkRaw Editor.Pixel 4 256 256 BGRA 8))
     (ExportCalls (Editor.engine Editor.standard) Editor.Rock "C:/Thumbs/Rock.png"
        Editor.emptyDisk) /\
  In (CallGetCompressed 95)
     (ExportCalls (Editor.engine Editor.standard) Editor.Rock "C:/Thumbs/Rock.png"
        Editor.emptyDisk).
Proof.
  assert (H : In (CallSetRaw (mkRaw Editor.Pixel 4 256 256 BGRA 8))
                (ExportCalls (Editor.engine Editor.standard) Editor.Rock
                   "C:/Thumbs/Rock.png" Editor.emptyDisk)).
  { vm_compute. auto 10. }
  split; [exact H|].
  exact (proj1 (compression_quality_is_95 (Editor.engine Editor.standard) Editor.Rock
                  "C:/Thumbs/Rock.png" Editor.emptyDisk
                  (mkRaw Editor.Pixel 4 256 256 BGRA 8) H)).
Defined.

(** C8. On every successful export the width and height handed to the image
    wrapper in SetRaw are the ones the rendered thumbnail reports
    (GetImageWidth, GetImageHeight of the thumbnail the renderer filled on the
    256 x 256 request), and the bytes written are the JPEG compression of that
    raw image: the encoded image has the dimensions the renderer produced. *)
Theorem encoder_gets_reported_dimensions (E : Engine) (ObjectPath OutputPath : FString)
    (d : FileSystem E) :
  Succeeded (ExportCalls E ObjectPath OutputPath d) ->
  exists obj raw,
    AssetOf E (RegistryLookup E ObjectPath) = Some obj /\
    In (CallRenderThumbnail obj 256 256 AlwaysFlush) (ExportCalls E ObjectPath OutputPath d) /\
    In (CallSetRaw raw) (ExportCalls E ObjectPath OutputPath d) /\
    (forall raw', In (CallSetRaw raw') (ExportCalls E ObjectPath OutputPath d) -> raw' = raw) /\
    RawWidth raw = GetImageWidth (Render E obj 256 256 AlwaysFlush EmptyThumbnail) /\
    RawHeight raw = GetImageHeight (Render E obj 256 256 AlwaysFlush EmptyThumbnail) /\
    In (CallSaveArrayToFile (Compress E JPEG raw 95) (FPaths.ChangeExtension OutputPath ".jpg"))
       (ExportCalls E ObjectPath OutputPath d).
Proof.
  intros Hs.
  pose proof (export_run E ObjectPath OutputPath d) as R.
  destruct (exported_run E _ _ _ _ _ R Hs) as (obj & Ha & _ & _ & Ht).
  exists obj, (RawOf (ThumbnailFor E obj)).
  split; [exact Ha|].
  split; [rewrite Ht; apply in_or_app; left; unfold EncodeCalls; cbn; auto 10|].
  split; [rewrite Ht; apply in_or_app; left; unfold EncodeCalls; cbn; auto 10|].
  split.
  { intros raw' Hraw.
    destruct (run_raw E _ _ _ _ _ raw' R Hraw) as (obj' & Ha' & Hr' & _).
    rewrite Ha in Ha'. inversion Ha'; subst obj'. exact Hr'. }
  split; [reflexivity|].
  split; [reflexivity|].
  rewrite Ht. apply in_or_app; right. apply in_or_app; right. left. reflexivity.
Qed.

Lemma encoder_gets_reported_dimensions_witness :
  Succeeded (ExportCalls (Editor.engine Editor.halfSized) Editor.Rock "C:/Thumbs/Rock.png"
               Editor.emptyDisk) /\
  exists obj raw,
    AssetOf (Editor.engine Editor.halfSized)
      (RegistryLookup (Editor.engine Editor.halfSized) Editor.Rock) = Some obj /\
    In (CallRenderThumbnail obj 256 256 AlwaysFlush)
       (ExportCalls (Editor.engine Editor.halfSized) Editor.Rock "C:/Thumbs/Rock.png"
          Editor.emptyDisk) /\
    In (CallSetRaw raw)
       (ExportCalls (Editor.engine Editor.halfSized) Editor.Rock "C:/Thumbs/Rock.png"
          Editor.emptyDisk) /\
    (forall raw',
        In (CallSetRaw raw')
           (ExportCalls (Editor.engine Editor.halfSized) Editor.Rock "C:/Thumbs/Rock.png"
              Editor.emptyDisk) -> raw' = raw) /\
    RawWidth raw =
      GetImageWidth (Render (Editor.engine Editor.halfSized) obj 256 256 AlwaysFlush
                       EmptyThumbnail) /\
    RawHeight raw =
      GetImageHeight (Render (Editor.engine Editor.halfSized) obj 256 256 AlwaysFlush
                        EmptyThumbnail) /\
    In (CallSaveArrayToFile (Compress (Editor.engine Editor.halfSized) JPEG raw 95)
          (FPaths.ChangeExtension "C:/Thumbs/Rock.png" ".jpg"))
       (ExportCalls (Editor.engine Editor.halfSized) Editor.Rock "C:/Thumbs/Rock.png"
          Editor.emptyDisk).
Proof.
  assert (H : Succeeded (ExportCalls (Editor.engine Editor.halfSized) Editor.Rock
                           "C:/Thumbs/Rock.png" Editor.emptyDisk)).
  { vm_compute. reflexivity. }
  split; [exact H|].
  exact (encoder_gets_reported_dimensions (Editor.engine Editor.halfSized) Editor.Rock
           "C:/Thumbs/Rock.png" Editor.emptyDisk H).
Defined.

(** Where the renderer reports 128 x 64 on the 256 x 256 request, 128 x 64 is
    what the image wrapper is given. *)
Example encoder_dimensions_follow_renderer :
  exists raw,
    In (CallSetRaw raw)
       (ExportCalls (Editor.engine Editor.halfSized) Editor.Rock "C:/Thumbs/Rock.png"
          Editor.emptyDisk) /\
    RawWidth raw = 128%Z /\ RawHeight raw = 64%Z.
Proof.
  exists (mkRaw Editor.Pixel 4 128 64 BGRA 8). vm_compute. auto 10.
Qed.



(** C10, as the routine has it.  When the write is attempted and fails and
    the output directory was missing, MakeDirectory was called on it with
    Tree = true just before the write and its result was not looked at; the
    failed write and its warning are the last two calls, so the routine
    removes nothing; and the file system it leaves is the one the failed
    write left of the file system MakeDirectory produced.  The directory is
    there at return exactly if it is there in that file system. *)
Theorem failed_write_keeps_what_make_directory_left (E : Engine)
    (ObjectPath OutputPath : FString) (d : FileSystem E)
    (bytes : list byte) (p : FString) :
  In (CallSaveArrayToFile bytes p) (ExportCalls E ObjectPath OutputPath d) ->
  Failed (ExportCalls E ObjectPath OutputPath d) ->
  FsDirectoryExists E d (FPaths.GetPath OutputPath) = false ->
  fst (FsSaveArrayToFile E
         (snd (FsMakeDirectory E d (FPaths.GetPath OutputPath) true)) bytes p) = false /\
  (exists pre,
      ExportCalls E ObjectPath OutputPath d =
        pre ++ [CallDirectoryExists (FPaths.GetPath OutputPath);
                CallMakeDirectory (FPaths.GetPath OutputPath) true;
                CallSaveArrayToFile bytes p;
                CallLog Warning ("Failed to save thumbnail to: " ++ p)%string] /\
      existsb IsFileSystemCall pre = false) /\
  ExportDisk E ObjectPath OutputPath d =
    snd (FsSaveArrayToFile E
           (snd (FsMakeDirectory E d (FPaths.GetPath OutputPath) true)) bytes p) /\
  FsDirectoryExists E (ExportDisk E ObjectPath OutputPath d) (FPaths.GetPath OutputPath) =
    FsDirectoryExists E
      (snd (FsSaveArrayToFile E
              (snd (FsMakeDirectory E d (FPaths.GetPath OutputPath) true)) bytes p))
      (FPaths.GetPath OutputPath).
Proof.
  intros Hw Hf Hdir.
  destruct (write_step E _ _ _ _ _ bytes p (export_run E ObjectPath OutputPath d) Hw)
    as (obj & _ & _ & _ & Hd & Ht).
  unfold DiskBeforeWrite, DirectoryCalls, OutputDirectory, NewOutputPath in Hd, Ht.
  rewrite GetPath_ChangeExtension, Hdir in Hd, Ht.
  destruct (fst (FsSaveArrayToFile E
                   (snd (FsMakeDirectory E d (FPaths.GetPath OutputPath) true)) bytes p))
    eqn:Hsave.
  - exfalso. unfold Failed in Hf. rewrite Ht in Hf.
    rewrite existsb_app in Hf. cbn in Hf. discriminate.
  - split; [reflexivity|]. split.
    + exists (EncodeCalls E ObjectPath obj). split; [exact Ht | reflexivity].
    + split; [exact Hd|]. rewrite Hd. reflexivity.
Qed.

Lemma failed_write_keeps_what_make_directory_left_witness :
  In (CallSaveArrayToFile [xff; xd8; xff; xd9] "C:/Thumbs/Rock.jpg")
     (ExportCalls (Editor.engine Editor.locked) Editor.Rock "C:/Thumbs/Rock.png"
        Editor.emptyDisk) /\
  Failed (ExportCalls (Editor.engine Editor.locked) Editor.Rock "C:/Thumbs/Rock.png"
            Editor.emptyDisk) /\
  FsDirectoryExists (Editor.engine Editor.locked) Editor.emptyDisk
    (FPaths.GetPath "C:/Thumbs/Rock.png") = false /\
  ExportDisk (Editor.engine Editor.locked) Editor.Rock "C:/Thumbs/Rock.png"
    Editor.emptyDisk =
    snd (FsSaveArrayToFile (Editor.engine Editor.locked)
           (snd (FsMakeDirectory (Editor.engine Editor.locked) Editor.emptyDisk
                   (FPaths.GetPath "C:/Thumbs/Rock.png") true))
           [xff; xd8; xff; xd9] "C:/Thumbs/Rock.jpg").
Proof.
  assert (Hw : In (CallSaveArrayToFile [xff; xd8; xff; xd9] "C:/Thumbs/Rock.jpg")
                 (ExportCalls (Editor.engine Editor.locked) Editor.Rock
                    "C:/Thumbs/Rock.png" Editor.emptyDisk)).
  { vm_compute. auto 12. }
  assert (Hf : Failed (ExportCalls (Editor.engine Editor.locked) Editor.Rock
                         "C:/Thumbs/Rock.png" Editor.emptyDisk)).
  { vm_compute. reflexivity. }
  assert (Hd : FsDirectoryExists (Editor.engine Editor.locked) Editor.emptyDisk
                 (FPaths.GetPath "C:/Thumbs/Rock.png") = false).
  { reflexivity. }
  split; [exact Hw|]. split; [exact Hf|]. split; [exact Hd|].
  exact (proj1 (proj2 (proj2
           (failed_write_keeps_what_make_directory_left (Editor.engine Editor.locked)
              Editor.Rock "C:/Thumbs/Rock.png" Editor.emptyDisk
              [xff; xd8; xff; xd9] "C:/Thumbs/Rock.jpg" Hw Hf Hd)))).
Defined.

(** C10 as stated fails: on a volume that refuses every change, compression
    succeeds, the directory is missing, MakeDirectory is called and fails,
    the write fails, and the directory does not exist when the routine
    returns. *)
Lemma directory_is_not_created_when_make_directory_fails :
  In (CallSaveArrayToFile [xff; xd8; xff; xd9] "C:/Thumbs/Rock.jpg")
     (ExportCalls (Bench.readOnly Editor.standard) Editor.Rock "C:/Thumbs/Rock.png"
        Editor.emptyDisk) /\
  Failed (ExportCalls (Bench.readOnly Editor.standard) Editor.Rock "C:/Thumbs/Rock.png"
            Editor.emptyDisk) /\
  FsDirectoryExists (Bench.readOnly Editor.standard) Editor.emptyDisk
    (FPaths.GetPath "C:/Thumbs/Rock.png") = false /\
  In (CallMakeDirectory (FPaths.GetPath "C:/Thumbs/Rock.png") true)
     (ExportCalls (Bench.readOnly Editor.standard) Editor.Rock "C:/Thumbs/Rock.png"
        Editor.emptyDisk) /\
  FsDirectoryExists (Bench.readOnly Editor.standard)
    (ExportDisk (Bench.readOnly Editor.standard) Editor.Rock "C:/Thumbs/Rock.png"
       Editor.emptyDisk)
    (FPaths.GetPath "C:/Thumbs/Rock.png") = false.
Proof.
  split; [vm_compute; auto 12|].
  split; [vm_compute; reflexivity|].
  split; [reflexivity|].
  split; [vm_compute; auto 12|].
  vm_compute. reflexivity.
Qed.

(** The extension the engine sees in [stem.ext]. *)
Lemma ExtensionPos_stem (stem ext : FString) :
  FStr.FindLastChar "." ext = None ->
  FStr.FindLastCharByPredicate FPaths.IsSlashOrBackslash ext = None ->
  FPaths.ExtensionPos (stem ++ String "." ext)%string = Some (FStr.Len stem).
Proof.
  intros Hdot Hsl. unfold FPaths.ExtensionPos.
  rewrite (FindLastChar_stem _ _ Hdot), FindLast_app.
  assert (Hnone : FStr.FindLastCharByPredicate FPaths.IsSlashOrBackslash (String "." ext)
                  = None).
  { cbn. rewrite Hsl. reflexivity. }
  rewrite Hnone.
  destruct (FStr.FindLastCharByPredicate FPaths.IsSlashOrBackslash stem) as [k|] eqn:Hk;
    [|reflexivity].
  apply FindLast_lt in Hk.
  assert (Hlt : (String.length stem <? k)%nat = false) by (apply Nat.ltb_ge; lia).
  rewrite Hlt. reflexivity.
Qed.

(** Whenever the routine attempts a write, the file name it writes to is
    FPaths::ChangeExtension(OutputPath, ".jpg"), it is the only one written
    to, and it keeps the directory (GetPath) and the base file name
    (GetBaseFilename, with and without the directory) of the caller's output
    path; for an output path [stem.ext] it is [stem.jpg]. *)
Theorem written_path_is_output_path_with_jpg_extension (E : Engine)
    (ObjectPath OutputPath : FString) (d : FileSystem E)
    (bytes : list byte) (p : FString) :
  In (CallSaveArrayToFile bytes p) (ExportCalls E ObjectPath OutputPath d) ->
  p = FPaths.ChangeExtension OutputPath ".jpg" /\
  (forall bytes' p',
      In (CallSaveArrayToFile bytes' p') (ExportCalls E ObjectPath OutputPath d) ->
      p' = p) /\
  FPaths.GetPath p = FPaths.GetPath OutputPath /\
  FPaths.GetBaseFilename p true = FPaths.GetBaseFilename OutputPath true /\
  FPaths.GetBaseFilename p false = FPaths.GetBaseFilename OutputPath false /\
  (forall stem ext,
      OutputPath = (stem ++ String "." ext)%string ->
      FStr.FindLastChar "." ext = None ->
      FStr.FindLastCharByPredicate FPaths.IsSlashOrBackslash ext = None ->
      p = (stem ++ ".jpg")%string).
Proof.
  intros Hw.
  pose proof (export_run E ObjectPath OutputPath d) as R.
  destruct (write_step E _ _ _ _ _ bytes p R Hw) as (_ & _ & _ & Hp & _).
  unfold NewOutputPath in Hp. subst p.
  split; [reflexivity|]. split.
  { intros bytes' p' Hw'.
    destruct (write_step E _ _ _ _ _ bytes' p' R Hw') as (_ & _ & _ & Hp' & _).
    exact Hp'. }
  split; [apply GetPath_ChangeExtension|].
  split; [apply GetBaseFilename_ChangeExtension|].
  split; [apply GetBaseFilename_ChangeExtension|].
  intros stem ext -> Hdot Hsl.
  rewrite (ChangeExtension_some _ _ (ExtensionPos_stem stem ext Hdot Hsl)).
  now rewrite Left_length_app.
Qed.

(** C4, as the routine has it.  Every failing call returns nothing to the
    caller and makes exactly one log call, a warning, as its last call.  A
    failing call that did not get to the write (empty input, asset not found,
    empty thumbnail data, no image wrapper, compression failure) leaves the
    file system as it found it and makes no file-system call at all.  A call
    whose write failed leaves the file system that the failed write left of
    the one before the write, which holds the output directory whenever it
    had to be made. *)
Theorem failure_logs_one_warning (E : Engine) (ObjectPath OutputPath : FString)
    (d : FileSystem E) :
  Failed (ExportCalls E ObjectPath OutputPath d) ->
  (forall j,
      ExportThumbnailAsPNG E ObjectPath OutputPath (mkWorld d j) =
      (tt, mkWorld (ExportDisk E ObjectPath OutputPath d)
                   (j ++ ExportCalls E ObjectPath OutputPath d))) /\
  (exists pre msg,
      ExportCalls E ObjectPath OutputPath d = pre ++ [CallLog Warning msg] /\
      existsb IsLog pre = false) /\
  (existsb IsWrite (ExportCalls E ObjectPath OutputPath d) = false ->
   ExportDisk E ObjectPath OutputPath d = d /\
   existsb IsFileSystemCall (ExportCalls E ObjectPath OutputPath d) = false) /\
  (forall bytes p,
      In (CallSaveArrayToFile bytes p) (ExportCalls E ObjectPath OutputPath d) ->
      fst (FsSaveArrayToFile E (DiskBeforeWrite E OutputPath d) bytes p) = false /\
      ExportDisk E ObjectPath OutputPath d =
        snd (FsSaveArrayToFile E (DiskBeforeWrite E OutputPath d) bytes p)).
Proof.
  intros Hf.
  pose proof (export_run E ObjectPath OutputPath d) as R.
  split; [intros j; apply (export_from E ObjectPath OutputPath (mkWorld d j))|].
  split.
  { destruct (one_log_line E _ _ _ _ _ R) as (pre & v & msg & Ht & Hpre).
    exists pre, msg. split; [|exact Hpre].
    destruct v; [exact Ht|].
    exfalso. unfold Failed in Hf. rewrite Ht, existsb_app in Hf. cbn in Hf.
    rewrite orb_false_r in Hf.
    assert (Hnone : forall l : list (EngineCall E),
               existsb IsLog l = false -> existsb IsWarning l = false).
    { induction l as [|c l IH]; cbn; [reflexivity|].
      intros H. apply orb_false_elim in H. destruct H as [Hc Hl].
      rewrite (IH Hl). destruct c; try reflexivity. discriminate. }
    rewrite (Hnone pre Hpre) in Hf. discriminate. }
  split; [apply (no_write_no_effect E _ _ _ _ _ R)|].
  intros bytes p Hw.
  destruct (write_step E _ _ _ _ _ bytes p R Hw) as (obj & _ & _ & _ & Hd & Ht).
  split; [|exact Hd].
  destruct (fst (FsSaveArrayToFile E (DiskBeforeWrite E OutputPath d) bytes p));
    [|reflexivity].
  exfalso. unfold Failed in Hf. rewrite Ht in Hf.
  rewrite !existsb_app in Hf. cbn in Hf.
  unfold DirectoryCalls in Hf.
  destruct (FsDirectoryExists E d (OutputDirectory OutputPath)); discriminate.
Qed.

Lemma failure_logs_one_warning_witness :
  Failed (ExportCalls (Editor.engine Editor.locked) Editor.Rock "C:/Thumbs/Rock.png"
            Editor.emptyDisk) /\
  exists pre msg,
    ExportCalls (Editor.engine Editor.locked) Editor.Rock "C:/Thumbs/Rock.png"
      Editor.emptyDisk = pre ++ [CallLog Warning msg] /\
    existsb IsLog pre = false.
Proof.
  assert (Hf : Failed (ExportCalls (Editor.engine Editor.locked) Editor.Rock
                         "C:/Thumbs/Rock.png" Editor.emptyDisk)).
  { vm_compute. reflexivity. }
  split; [exact Hf|].
  exact (proj1 (proj2 (failure_logs_one_warning (Editor.engine Editor.locked)
                         Editor.Rock "C:/Thumbs/Rock.png" Editor.emptyDisk Hf))).
Defined.

(** C4 as stated fails: with the output directory missing and the file name
    write-protected, the call fails with a warning and yet leaves a file
    system that differs from the one it started on (the directory it made). *)
Lemma failed_write_is_not_a_no_op :
  Failed (ExportCalls (Editor.engine Editor.locked) Editor.Rock "C:/Thumbs/Rock.png"
            Editor.emptyDisk) /\
  ExportDisk (Editor.engine Editor.locked) Editor.Rock "C:/Thumbs/Rock.png"
    Editor.emptyDisk = Editor.mkDisk ["C:/Thumbs"%string] [] /\
  ExportDisk (Editor.engine Editor.locked) Editor.Rock "C:/Thumbs/Rock.png"
    Editor.emptyDisk <> Editor.emptyDisk.
Proof.
  split; [vm_compute; reflexivity|].
  split; [vm_compute; reflexivity|].
  vm_compute. discriminate.
Qed.

(** Where the file name of the output path has an extension, whatever it
    is, the file name written to ends in [.jpg]. *)
Lemma export_writes_jpg_when_output_path_has_extension (E : Engine)
    (ObjectPath OutputPath : FString) (d : FileSystem E)
    (pos : nat) (bytes : list byte) (p : FString) :
  FPaths.ExtensionPos OutputPath = Some pos ->
  In (CallSaveArrayToFile bytes p) (ExportCalls E ObjectPath OutputPath d) ->
  FStr.EndsWith ".jpg" p = true.
Proof.
  intros Hpos Hw.
  destruct (write_step E _ _ _ _ _ bytes p (export_run E ObjectPath OutputPath d) Hw)
    as (_ & _ & _ & Hp & _).
  subst p. exact (ChangeExtension_ends_with_jpg OutputPath pos Hpos).
Qed.

(** Where it has none, the file name written to is the output path as the
    caller gave it. *)
Lemma export_keeps_output_path_without_extension (E : Engine)
    (ObjectPath OutputPath : FString) (d : FileSystem E)
    (bytes : list byte) (p : FString) :
  FPaths.ExtensionPos OutputPath = None ->
  In (CallSaveArrayToFile bytes p) (ExportCalls E ObjectPath OutputPath d) ->
  p = OutputPath.
Proof.
  intros Hpos Hw.
  destruct (write_step E _ _ _ _ _ bytes p (export_run E ObjectPath OutputPath d) Hw)
    as (_ & _ & _ & Hp & _).
  subst p. exact (ChangeExtension_none OutputPath ".jpg" Hpos).
Qed.

(** C1 at an output path without extension: the export succeeds and the file
    is written under the caller's path as given, which does not end in
    [.jpg]. *)
Theorem export_to_path_without_extension_keeps_it :
  ExportCalls (Editor.engine Editor.standard) Editor.Rock "C:/Thumbs/Rock" Editor.emptyDisk =
    [@CallGetAssetByObjectPath (Editor.engine Editor.standard) Editor.Rock;
     @CallGetAsset (Editor.engine Editor.standard) (Some Editor.Rock);
     @CallRenderThumbnail (Editor.engine Editor.standard) Editor.Rock 256 256 AlwaysFlush;
     CallCreateImageWrapper JPEG;
     CallSetRaw (mkRaw Editor.Pixel 4 256 256 BGRA 8);
     CallGetCompressed 95;
     CallDirectoryExists "C:/Thumbs";
     CallMakeDirectory "C:/Thumbs" true;
     CallSaveArrayToFile [xff; xd8; xff; xd9] "C:/Thumbs/Rock";
     CallLog Log "Exported thumbnail to: C:/Thumbs/Rock"] /\
  ExportDisk (Editor.engine Editor.standard) Editor.Rock "C:/Thumbs/Rock" Editor.emptyDisk =
    Editor.mkDisk ["C:/Thumbs"%string] [("C:/Thumbs/Rock"%string, [xff; xd8; xff; xd9])] /\
  FStr.EndsWith ".jpg" "C:/Thumbs/Rock" = false.
Proof. repeat split; vm_compute; reflexivity. Qed.

(** C9 at an output path whose only dot is in a directory name: nothing is
    replaced by [.jpg]; the file is written under the caller's path as given,
    which is not that path with the extension [.jpg]. *)
Theorem export_to_dotted_directory_replaces_no_extension :
  ExportCalls (Editor.engine Editor.standard) Editor.Rock "C:/Thumbs.v2/Rock"
    Editor.emptyDisk =
    [@CallGetAssetByObjectPath (Editor.engine Editor.standard) Editor.Rock;
     @CallGetAsset (Editor.engine Editor.standard) (Some Editor.Rock);
     @CallRenderThumbnail (Editor.engine Editor.standard) Editor.Rock 256 256 AlwaysFlush;
     CallCreateImageWrapper JPEG;
     CallSetRaw (mkRaw Editor.Pixel 4 256 256 BGRA 8);
     CallGetCompressed 95;
     CallDirectoryExists "C:/Thumbs.v2";
     CallMakeDirectory "C:/Thumbs.v2" true;
     CallSaveArrayToFile [xff; xd8; xff; xd9] "C:/Thumbs.v2/Rock";
     CallLog Log "Exported thumbnail to: C:/Thumbs.v2/Rock"] /\
  FPaths.ChangeExtension "C:/Thumbs.v2/Rock" ".jpg" = "C:/Thumbs.v2/Rock"%string /\
  "C:/Thumbs.v2/Rock"%string <> "C:/Thumbs.v2/Rock.jpg"%string /\
  FStr.EndsWith ".jpg" "C:/Thumbs.v2/Rock" = false.
Proof.
  split; [vm_compute; reflexivity|].
  split; [vm_compute; reflexivity|].
  split; [discriminate | vm_compute; reflexivity].
Qed.

(** ** More on the runs: what each call is passed *)

Lemma Num_zero {A : Type} (a : list A) : Num a = 0%Z <-> a = [].
Proof.
  unfold Num. destruct a as [|x a]; cbn; split; intros H;
    try reflexivity; try discriminate; lia.
Qed.

Lemma inputs_not_empty (ObjectPath OutputPath : FString) :
  ObjectPath <> EmptyString -> OutputPath <> EmptyString ->
  FStr.IsEmpty ObjectPath || FStr.IsEmpty OutputPath = false.
Proof.
  intros H1 H2. destruct ObjectPath; [contradiction|].
  destruct OutputPath; [contradiction|]. reflexivity.
Qed.

Lemma inputs_not_empty_inv (ObjectPath OutputPath : FString) :
  FStr.IsEmpty ObjectPath || FStr.IsEmpty OutputPath = false ->
  ObjectPath <> EmptyString /\ OutputPath <> EmptyString.
Proof.
  destruct ObjectPath; [discriminate|]. destruct OutputPath; [discriminate|].
  intros _. split; discriminate.
Qed.

Section ArgumentFacts.

Variable E : Engine.
Variables ObjectPath OutputPath : FString.
Variable d : FileSystem E.

Lemma run_render (t : list (EngineCall E)) (d' : FileSystem E)
    (o : UObject E) (w h : Z) (f : EThumbnailTextureFlushMode) :
  ExportRun E ObjectPath OutputPath d t d' ->
  In (CallRenderThumbnail o w h f) t ->
  AssetOf E (RegistryLookup E ObjectPath) = Some o /\
  w = 256%Z /\ h = 256%Z /\ f = AlwaysFlush.
Proof.
  intros R H. destruct R; in_cases H; try discriminate.
  all: inversion H; subst; auto.
Qed.

Lemma run_wrapper_format (t : list (EngineCall E)) (d' : FileSystem E)
    (fmt : EImageFormat) :
  ExportRun E ObjectPath OutputPath d t d' ->
  In (CallCreateImageWrapper fmt) t -> fmt = JPEG.
Proof.
  intros R H. destruct R; in_cases H; try discriminate; now inversion H.
Qed.

Lemma run_raw_data (t : list (EngineCall E)) (d' : FileSystem E) (raw : FRawImage) :
  ExportRun E ObjectPath OutputPath d t d' ->
  In (CallSetRaw raw) t ->
  exists obj,
    AssetOf E (RegistryLookup E ObjectPath) = Some obj /\
    raw = RawOf (ThumbnailFor E obj) /\
    GetUncompressedImageData (ThumbnailFor E obj) <> [].
Proof.
  intros R H. destruct R; in_cases H; try discriminate.
  all: inversion H; subst raw; exists obj; repeat split; auto.
  all: intros Hnil; apply Num_zero in Hnil; contradiction.
Qed.

Lemma run_write_not_empty (t : list (EngineCall E)) (d' : FileSystem E)
    (bytes : list byte) (p : FString) :
  ExportRun E ObjectPath OutputPath d t d' ->
  In (CallSaveArrayToFile bytes p) t ->
  bytes <> [] /\ ObjectPath <> EmptyString /\ OutputPath <> EmptyString.
Proof.
  intros R H. destruct R; in_cases H; try discriminate.
  all: inversion H; subst bytes p; split;
    [intros Hnil; apply Num_zero in Hnil; contradiction
    | now apply inputs_not_empty_inv].
Qed.

Lemma run_directory_test (t : list (EngineCall E)) (d' : FileSystem E) (x : FString) :
  ExportRun E ObjectPath OutputPath d t d' ->
  In (CallDirectoryExists x) t ->
  x = OutputDirectory OutputPath /\
  exists bytes, In (CallSaveArrayToFile bytes (NewOutputPath OutputPath)) t.
Proof.
  intros R H. destruct R; in_cases H; try discriminate.
  all: inversion H; subst x; split; [reflexivity|].
  all: eexists; apply in_or_app; right; apply in_or_app; right; left; reflexivity.
Qed.

Lemma run_make_directory (t : list (EngineCall E)) (d' : FileSystem E)
    (x : FString) (tree : bool) :
  ExportRun E ObjectPath OutputPath d t d' ->
  In (CallMakeDirectory x tree) t ->
  x = OutputDirectory OutputPath /\ tree = true /\
  FsDirectoryExists E d (OutputDirectory OutputPath) = false /\
  exists bytes, In (CallSaveArrayToFile bytes (NewOutputPath OutputPath)) t.
Proof.
  intros R H.
  assert (Hd : In (CallMakeDirectory x tree) (DirectoryCalls E OutputPath d) ->
               x = OutputDirectory OutputPath /\ tree = true /\
               FsDirectoryExists E d (OutputDirectory OutputPath) = false).
  { unfold DirectoryCalls.
    destruct (FsDirectoryExists E d (OutputDirectory OutputPath)); cbn; intros Hin.
    - destruct Hin as [Hin|[]]. discriminate.
    - destruct Hin as [Hin|[Hin|[]]]; [discriminate|]. inversion Hin; auto. }
  destruct R as [Hi|Hi Ha|obj Hi Ha Hdt|obj Hi Ha Hdt Hw|obj Hi Ha Hdt Hw Hc
                |obj Hi Ha Hdt Hw Hc Hsv|obj Hi Ha Hdt Hw Hc Hsv].
  1-5: in_cases H; discriminate.
  all: apply in_app_or in H; destruct H as [H|H];
    [unfold EncodeCalls in H; in_cases H; discriminate|].
  all: apply in_app_or in H; destruct H as [H|H]; [|in_cases H; discriminate].
  all: destruct (Hd H) as (Hx & Ht & He); repeat split; auto.
  all: eexists; apply in_or_app; right; apply in_or_app; right; left; reflexivity.
Qed.

Lemma run_existing_directory (t : list (EngineCall E)) (d' : FileSystem E)
    (bytes : list byte) (p : FString) :
  ExportRun E ObjectPath OutputPath d t d' ->
  In (CallSaveArrayToFile bytes p) t ->
  FsDirectoryExists E d (OutputDirectory OutputPath) = true ->
  d' = snd (FsSaveArrayToFile E d bytes p).
Proof.
  intros R Hw He.
  destruct (write_step E _ _ _ _ _ bytes p R Hw) as (_ & _ & _ & _ & Hd & _).
  unfold DiskBeforeWrite in Hd. rewrite He in Hd. exact Hd.
Qed.

(** The kinds of the calls of a run: a prefix of the pipeline, then the log. *)
Lemma run_kinds (t : list (EngineCall E)) (d' : FileSystem E) :
  ExportRun E ObjectPath OutputPath d t d' ->
  exists n,
    map KindOf t =
    firstn n (Pipeline (negb (FsDirectoryExists E d (OutputDirectory OutputPath))))
    ++ [KLog].
Proof.
  intros R. destruct R.
  - exists 0. reflexivity.
  - exists 2. reflexivity.
  - exists 3. reflexivity.
  - exists 4. reflexivity.
  - exists 6. reflexivity.
  - exists 9. rewrite !map_app. unfold DirectoryCalls, Pipeline.
    destruct (FsDirectoryExists E d (OutputDirectory OutputPath)); reflexivity.
  - exists 9. rewrite !map_app. unfold DirectoryCalls, Pipeline.
    destruct (FsDirectoryExists E d (OutputDirectory OutputPath)); reflexivity.
Qed.

End ArgumentFacts.

(** ** More on the engine paths *)

Section MorePathFacts.

Import FStr FPaths.

Lemma Left_RightChop (n : nat) (s : FString) : (Left n s ++ RightChop n s)%string = s.
Proof.
  revert n; induction s as [|c s IH]; intros [|n]; cbn; try reflexivity.
  now rewrite IH.
Qed.

Lemma EndsWith_split (suffix s : FString) :
  EndsWith suffix s = true -> exists a, s = (a ++ suffix)%string.
Proof.
  unfold EndsWith. intros H. apply andb_prop in H. destruct H as [H _].
  apply String.eqb_eq in H.
  exists (Left (Len s - Len suffix) s).
  rewrite <- H at 2. symmetry. apply Left_RightChop.
Qed.

Lemma RightChop_length_app (a b : FString) : RightChop (Len a) (a ++ b)%string = b.
Proof. induction a as [|c a IH]; cbn; [reflexivity | exact IH]. Qed.

Lemma EndsWith_png_jpg (a : FString) : EndsWith ".png" (a ++ ".jpg")%string = false.
Proof.
  unfold EndsWith. rewrite Len_app.
  replace (Len a + Len ".jpg" - Len ".png") with (Len a) by (cbn; lia).
  rewrite RightChop_length_app. reflexivity.
Qed.

Lemma ChangeExtension_not_png (p : FString) :
  EndsWith ".png" (ChangeExtension p ".jpg") = false.
Proof.
  destruct (ExtensionPos p) as [pos|] eqn:Hpos.
  - rewrite (ChangeExtension_some _ _ Hpos). apply EndsWith_png_jpg.
  - rewrite (ChangeExtension_none _ _ Hpos).
    destruct (EndsWith ".png" p) eqn:He; [|reflexivity].
    destruct (EndsWith_split _ _ He) as (a & ->).
    assert (Hs : ExtensionPos (a ++ String "." "png")%string = Some (Len a)).
    { apply ExtensionPos_stem; reflexivity. }
    change (a ++ ".png")%string with (a ++ String "." "png")%string in Hpos.
    rewrite Hs in Hpos. discriminate.
Qed.

Lemma ChangeExtension_idempotent (p : FString) :
  ChangeExtension (ChangeExtension p ".jpg") ".jpg" = ChangeExtension p ".jpg".
Proof.
  destruct (ExtensionPos p) as [pos|] eqn:Hpos.
  - rewrite (ChangeExtension_some _ _ Hpos).
    assert (Hs : ExtensionPos (Left pos p ++ String "." "jpg")%string
                 = Some (Len (Left pos p))).
    { apply ExtensionPos_stem; reflexivity. }
    change (Left pos p ++ ".jpg")%string with (Left pos p ++ String "." "jpg")%string.
    rewrite (ChangeExtension_some _ _ Hs). now rewrite Left_length_app.
  - rewrite (ChangeExtension_none _ _ Hpos). now apply ChangeExtension_none.
Qed.

Lemma ChangeExtension_not_empty (p : FString) :
  p <> EmptyString -> ChangeExtension p ".jpg" <> EmptyString.
Proof.
  intros Hp. destruct (ExtensionPos p) as [pos|] eqn:Hpos.
  - rewrite (ChangeExtension_some _ _ Hpos).
    destruct (Left pos p); discriminate.
  - now rewrite (ChangeExtension_none _ _ Hpos).
Qed.

Lemma FindLastSlash_ChangeExtension (p : FString) :
  FindLastCharByPredicate IsSlashOrBackslash (ChangeExtension p ".jpg") =
  FindLastCharByPredicate IsSlashOrBackslash p.
Proof.
  destruct (ExtensionPos p) as [pos|] eqn:Hpos.
  - rewrite (ChangeExtension_some _ _ Hpos).
    destruct (ExtensionPos_split _ _ Hpos) as (rest & Heq & _ & _ & Hsl).
    rewrite Heq at 2. rewrite !FindLast_app, Hsl. reflexivity.
  - now rewrite ChangeExtension_none.
Qed.

(** A path with a separator is its directory, the last separator and a leaf
    without separator. *)
Lemma GetPath_split (p : FString) (i : nat) :
  FindLastCharByPredicate IsSlashOrBackslash p = Some i ->
  exists c leaf,
    p = (GetPath p ++ String c leaf)%string /\
    IsSlashOrBackslash c = true /\
    FindLastCharByPredicate IsSlashOrBackslash leaf = None.
Proof.
  intros H. destruct (FindLast_split _ _ _ H) as (c & leaf & Heq & _ & Hc & Hl).
  exists c, leaf. unfold GetPath. rewrite H. auto.
Qed.

End MorePathFacts.

(** ** The dimensions of the exported image *)

(** C2, as the routine has it.  Every successful export asked the renderer
    for a 256 x 256 thumbnail, whatever the asset, and the one raw image it
    handed to the image wrapper, whose JPEG compression it wrote, has the
    width and height the rendered thumbnail reports: it is 256 x 256 exactly
    when the thumbnail reports 256 x 256. *)
Theorem exported_dimensions_are_the_thumbnails (E : Engine)
    (ObjectPath OutputPath : FString) (d : FileSystem E) :
  Succeeded (ExportCalls E ObjectPath OutputPath d) ->
  exists obj raw,
    AssetOf E (RegistryLookup E ObjectPath) = Some obj /\
    (forall o w h f,
        In (CallRenderThumbnail o w h f) (ExportCalls E ObjectPath OutputPath d) ->
        o = obj /\ w = 256%Z /\ h = 256%Z) /\
    In (CallRenderThumbnail obj 256 256 AlwaysFlush) (ExportCalls E ObjectPath OutputPath d) /\
    In (CallSetRaw raw) (ExportCalls E ObjectPath OutputPath d) /\
    (forall raw', In (CallSetRaw raw') (ExportCalls E ObjectPath OutputPath d) -> raw' = raw) /\
    RawWidth raw = GetImageWidth (Render E obj 256 256 AlwaysFlush EmptyThumbnail) /\
    RawHeight raw = GetImageHeight (Render E obj 256 256 AlwaysFlush EmptyThumbnail) /\
    ((RawWidth raw = 256%Z /\ RawHeight raw = 256%Z) <->
     (GetImageWidth (Render E obj 256 256 AlwaysFlush EmptyThumbnail) = 256%Z /\
      GetImageHeight (Render E obj 256 256 AlwaysFlush EmptyThumbnail) = 256%Z)) /\
    In (CallSaveArrayToFile (Compress E JPEG raw 95) (FPaths.ChangeExtension OutputPath ".jpg"))
       (ExportCalls E ObjectPath OutputPath d).
Proof.
  intros Hs.
  pose proof (export_run E ObjectPath OutputPath d) as R.
  destruct (exported_run E _ _ _ _ _ R Hs) as (obj & Ha & _ & _ & Ht).
  exists obj, (RawOf (ThumbnailFor E obj)).
  split; [exact Ha|].
  split.
  { intros o w h f Hr.
    destruct (run_render E _ _ _ _ _ o w h f R Hr) as (Ho & Hw & Hh & _).
    rewrite Ha in Ho. inversion Ho. auto. }
  split; [rewrite Ht; apply in_or_app; left; unfold EncodeCalls; cbn; auto 10|].
  split; [rewrite Ht; apply in_or_app; left; unfold EncodeCalls; cbn; auto 10|].
  split.
  { intros raw' Hraw'.
    destruct (run_raw E _ _ _ _ _ raw' R Hraw') as (obj' & Ha' & Hr' & _).
    rewrite Ha in Ha'. inversion Ha'; subst obj'. exact Hr'. }
  split; [reflexivity|].
  split; [reflexivity|].
  split; [split; intros H; exact H|].
  rewrite Ht. apply in_or_app; right. apply in_or_app; right. left. reflexivity.
Qed.

Lemma exported_dimensions_are_the_thumbnails_witness :
  Succeeded (ExportCalls (Editor.engine Editor.standard) Editor.Rock "C:/Thumbs/Rock.png"
               Editor.emptyDisk) /\
  exists raw,
    In (CallSetRaw raw)
       (ExportCalls (Editor.engine Editor.standard) Editor.Rock "C:/Thumbs/Rock.png"
          Editor.emptyDisk) /\
    RawWidth raw =
      GetImageWidth (Render (Editor.engine Editor.standard) Editor.Rock 256 256
                       AlwaysFlush EmptyThumbnail).
Proof.
  assert (Hs : Succeeded (ExportCalls (Editor.engine Editor.standard) Editor.Rock
                            "C:/Thumbs/Rock.png" Editor.emptyDisk)).
  { vm_compute. reflexivity. }
  split; [exact Hs|].
  destruct (exported_dimensions_are_the_thumbnails (Editor.engine Editor.standard)
              Editor.Rock "C:/Thumbs/Rock.png" Editor.emptyDisk Hs)
    as (obj & raw & Ha & _ & _ & Hraw & _ & Hw & _).
  exists raw. split; [exact Hraw|].
  inversion Ha; subst obj. exact Hw.
Defined.

(** C2 as stated fails: where the renderer leaves a thumbnail that reports
    128 x 64 on the 256 x 256 request, the export succeeds and the raw image
    handed to the image wrapper, and written as JPEG, is 128 x 64. *)
Lemma exported_thumbnail_need_not_be_256_square :
  Succeeded (ExportCalls (Editor.engine Editor.halfSized) Editor.Rock "C:/Thumbs/Rock.png"
               Editor.emptyDisk) /\
  In (@CallRenderThumbnail (Editor.engine Editor.halfSized) Editor.Rock 256 256 AlwaysFlush)
     (ExportCalls (Editor.engine Editor.halfSized) Editor.Rock "C:/Thumbs/Rock.png"
        Editor.emptyDisk) /\
  In (CallSetRaw (mkRaw Editor.Pixel 4 128 64 BGRA 8))
     (ExportCalls (Editor.engine Editor.halfSized) Editor.Rock "C:/Thumbs/Rock.png"
        Editor.emptyDisk) /\
  In (CallSaveArrayToFile
        (Compress (Editor.engine Editor.halfSized) JPEG
           (mkRaw Editor.Pixel 4 128 64 BGRA 8) 95)
        "C:/Thumbs/Rock.jpg")
     (ExportCalls (Editor.engine Editor.halfSized) Editor.Rock "C:/Thumbs/Rock.png"
        Editor.emptyDisk) /\
  RawWidth (mkRaw Editor.Pixel 4 128 64 BGRA 8) <> 256%Z /\
  RawHeight (mkRaw Editor.Pixel 4 128 64 BGRA 8) <> 256%Z.
Proof.
  split; [vm_compute; reflexivity|].
  split; [vm_compute; auto 12|].
  split; [vm_compute; auto 12|].
  split; [vm_compute; auto 12|].
  split; discriminate.
Qed.

Lemma OutputDirectory_eq (OutputPath : FString) :
  OutputDirectory OutputPath = FPaths.GetPath OutputPath.
Proof. apply GetPath_ChangeExtension. Qed.

(** ** Where the pipeline stops *)

(** X1. With both paths non-empty and no asset at the object path, the
    routine makes the two registry calls and logs "Asset not found at path:"
    followed by the object path; it never calls the renderer, the image
    wrapper or the file manager, and the file system is untouched. *)
Theorem missing_asset_stops_after_lookup (E : Engine) (ObjectPath OutputPath : FString)
    (d : FileSystem E) :
  ObjectPath <> EmptyString ->
  OutputPath <> EmptyString ->
  AssetOf E (RegistryLookup E ObjectPath) = None ->
  ExportCalls E ObjectPath OutputPath d =
    [CallGetAssetByObjectPath ObjectPath;
     CallGetAsset (RegistryLookup E ObjectPath);
     CallLog Warning ("Asset not found at path: " ++ ObjectPath)%string] /\
  ExportDisk E ObjectPath OutputPath d = d.
Proof.
  intros H1 H2 Ha. apply run_is_export.
  apply RunAssetNotFound; [now apply inputs_not_empty | exact Ha].
Qed.

Lemma missing_asset_stops_after_lookup_witness :
  ExportCalls (Editor.engine Editor.standard) "/Game/Props/Missing" "C:/Thumbs/Rock.png"
    Editor.emptyDisk =
    [CallGetAssetByObjectPath "/Game/Props/Missing";
     CallGetAsset (RegistryLookup (Editor.engine Editor.standard) "/Game/Props/Missing");
     CallLog Warning "Asset not found at path: /Game/Props/Missing"] /\
  ExportDisk (Editor.engine Editor.standard) "/Game/Props/Missing" "C:/Thumbs/Rock.png"
    Editor.emptyDisk = Editor.emptyDisk.
Proof.
  apply (missing_asset_stops_after_lookup (Editor.engine Editor.standard)
           "/Game/Props/Missing" "C:/Thumbs/Rock.png" Editor.emptyDisk).
  - discriminate.
  - discriminate.
  - reflexivity.
Defined.

(** X2. When the renderer leaves the thumbnail without pixel data, the
    routine stops after the render call with the warning "No thumbnail data
    for asset:" followed by the object path: no image wrapper is created,
    nothing is compressed, and the file system is untouched. *)
Theorem empty_thumbnail_stops_before_encoder (E : Engine)
    (ObjectPath OutputPath : FString) (d : FileSystem E) (obj : UObject E) :
  ObjectPath <> EmptyString ->
  OutputPath <> EmptyString ->
  AssetOf E (RegistryLookup E ObjectPath) = Some obj ->
  GetUncompressedImageData (Render E obj 256 256 AlwaysFlush EmptyThumbnail) = [] ->
  ExportCalls E ObjectPath OutputPath d =
    [CallGetAssetByObjectPath ObjectPath;
     CallGetAsset (RegistryLookup E ObjectPath);
     CallRenderThumbnail obj 256 256 AlwaysFlush;
     CallLog Warning ("No thumbnail data for asset: " ++ ObjectPath)%string] /\
  ExportDisk E ObjectPath OutputPath d = d.
Proof.
  intros H1 H2 Ha Hd. apply run_is_export.
  apply RunNoThumbnailData; [now apply inputs_not_empty | exact Ha |].
  apply Num_zero. exact Hd.
Qed.

Lemma empty_thumbnail_stops_before_encoder_witness :
  ExportCalls (Editor.engine Bench.blank) Editor.Rock "C:/Thumbs/Rock.png"
    Editor.emptyDisk =
    [CallGetAssetByObjectPath Editor.Rock;
     CallGetAsset (RegistryLookup (Editor.engine Bench.blank) Editor.Rock);
     @CallRenderThumbnail (Editor.engine Bench.blank) Editor.Rock 256 256 AlwaysFlush;
     CallLog Warning "No thumbnail data for asset: /Game/Props/Rock.Rock"] /\
  ExportDisk (Editor.engine Bench.blank) Editor.Rock "C:/Thumbs/Rock.png"
    Editor.emptyDisk = Editor.emptyDisk.
Proof.
  apply (empty_thumbnail_stops_before_encoder (Editor.engine Bench.blank)
           Editor.Rock "C:/Thumbs/Rock.png" Editor.emptyDisk Editor.Rock).
  - discriminate.
  - discriminate.
  - reflexivity.
  - reflexivity.
Defined.

(** X3. When the engine has no valid JPEG image wrapper, whatever other
    formats it has, the routine stops after CreateImageWrapper(JPEG) with the
    warning "Failed to create ImageWrapper!": SetRaw and GetCompressed are
    never called and the file system is untouched. *)
Theorem missing_jpeg_wrapper_stops_before_compression (E : Engine)
    (ObjectPath OutputPath : FString) (d : FileSystem E) (obj : UObject E) :
  ObjectPath <> EmptyString ->
  OutputPath <> EmptyString ->
  AssetOf E (RegistryLookup E ObjectPath) = Some obj ->
  GetUncompressedImageData (Render E obj 256 256 AlwaysFlush EmptyThumbnail) <> [] ->
  HasImageWrapper E JPEG = false ->
  ExportCalls E ObjectPath OutputPath d =
    [CallGetAssetByObjectPath ObjectPath;
     CallGetAsset (RegistryLookup E ObjectPath);
     CallRenderThumbnail obj 256 256 AlwaysFlush;
     CallCreateImageWrapper JPEG;
     CallLog Warning "Failed to create ImageWrapper!"] /\
  ExportDisk E ObjectPath OutputPath d = d.
Proof.
  intros H1 H2 Ha Hd Hw. apply run_is_export.
  apply RunNoImageWrapper; [now apply inputs_not_empty | exact Ha | | exact Hw].
  intros Hz. apply Num_zero in Hz. contradiction.
Qed.

Lemma missing_jpeg_wrapper_stops_before_compression_witness :
  HasImageWrapper (Editor.engine Bench.noJpeg) PNG = true /\
  ExportCalls (Editor.engine Bench.noJpeg) Editor.Rock "C:/Thumbs/Rock.png"
    Editor.emptyDisk =
    [CallGetAssetByObjectPath Editor.Rock;
     CallGetAsset (RegistryLookup (Editor.engine Bench.noJpeg) Editor.Rock);
     @CallRenderThumbnail (Editor.engine Bench.noJpeg) Editor.Rock 256 256 AlwaysFlush;
     CallCreateImageWrapper JPEG;
     CallLog Warning "Failed to create ImageWrapper!"] /\
  ExportDisk (Editor.engine Bench.noJpeg) Editor.Rock "C:/Thumbs/Rock.png"
    Editor.emptyDisk = Editor.emptyDisk.
Proof.
  split; [reflexivity|].
  apply (missing_jpeg_wrapper_stops_before_compression (Editor.engine Bench.noJpeg)
           Editor.Rock "C:/Thumbs/Rock.png" Editor.emptyDisk Editor.Rock).
  - discriminate.
  - discriminate.
  - reflexivity.
  - discriminate.
  - reflexivity.
Defined.

(** X4. When GetCompressed(95) yields no bytes, the routine stops with the
    warning "Failed to compress image data!" before any file-manager call:
    the directory is neither tested nor created, nothing is written, and the
    file system is untouched. *)
Theorem empty_compression_stops_before_file_system (E : Engine)
    (ObjectPath OutputPath : FString) (d : FileSystem E) (obj : UObject E) :
  ObjectPath <> EmptyString ->
  OutputPath <> EmptyString ->
  AssetOf E (RegistryLookup E ObjectPath) = Some obj ->
  GetUncompressedImageData (Render E obj 256 256 AlwaysFlush EmptyThumbnail) <> [] ->
  HasImageWrapper E JPEG = true ->
  Compress E JPEG (RawOf (Render E obj 256 256 AlwaysFlush EmptyThumbnail)) 95 = [] ->
  ExportCalls E ObjectPath OutputPath d =
    [CallGetAssetByObjectPath ObjectPath;
     CallGetAsset (RegistryLookup E ObjectPath);
     CallRenderThumbnail obj 256 256 AlwaysFlush;
     CallCreateImageWrapper JPEG;
     CallSetRaw (RawOf (Render E obj 256 256 AlwaysFlush EmptyThumbnail));
     CallGetCompressed 95;
     CallLog Warning "Failed to compress image data!"] /\
  ExportDisk E ObjectPath OutputPath d = d /\
  existsb IsFileSystemCall (ExportCalls E ObjectPath OutputPath d) = false.
Proof.
  intros H1 H2 Ha Hd Hw Hc.
  assert (R : ExportRun E ObjectPath OutputPath d
                (EncodeCalls E ObjectPath obj ++
                 [CallLog Warning "Failed to compress image data!"]) d).
  { apply RunCompressionFailed;
      [now apply inputs_not_empty | exact Ha | | exact Hw |].
    - intros Hz. apply Num_zero in Hz. contradiction.
    - apply Num_zero. exact Hc. }
  destruct (run_is_export E _ _ _ _ _ R) as [Ht Hdk].
  rewrite Ht. split; [reflexivity|]. split; [exact Hdk | reflexivity].
Qed.

Lemma empty_compression_stops_before_file_system_witness :
  ExportDisk (Bench.mute Editor.standard) Editor.Rock "C:/Thumbs/Rock.png"
    Editor.emptyDisk = Editor.emptyDisk /\
  existsb IsFileSystemCall
    (ExportCalls (Bench.mute Editor.standard) Editor.Rock "C:/Thumbs/Rock.png"
       Editor.emptyDisk) = false.
Proof.
  refine (proj2 (empty_compression_stops_before_file_system (Bench.mute Editor.standard)
                   Editor.Rock "C:/Thumbs/Rock.png" Editor.emptyDisk Editor.Rock
                   _ _ _ _ _ _)).
  - discriminate.
  - discriminate.
  - reflexivity.
  - discriminate.
  - reflexivity.
  - reflexivity.
Defined.

(** X5. A successful export ends with the write and one log line of
    verbosity Log that names the file written, "Exported thumbnail to:"
    followed by the extension-swapped path; it logs nothing else, no warning,
    writes once, and leaves the file system the successful write produced. *)
Theorem successful_export_logs_written_path (E : Engine)
    (ObjectPath OutputPath : FString) (d : FileSystem E) :
  Succeeded (ExportCalls E ObjectPath OutputPath d) ->
  exists pre bytes,
    ExportCalls E ObjectPath OutputPath d =
      pre ++ [CallSaveArrayToFile bytes (FPaths.ChangeExtension OutputPath ".jpg");
              CallLog Log ("Exported thumbnail to: " ++
                           FPaths.ChangeExtension OutputPath ".jpg")%string] /\
    existsb IsLog pre = false /\
    existsb IsWrite pre = false /\
    ~ Failed (ExportCalls E ObjectPath OutputPath d) /\
    fst (FsSaveArrayToFile E (DiskBeforeWrite E OutputPath d) bytes
           (FPaths.ChangeExtension OutputPath ".jpg")) = true /\
    ExportDisk E ObjectPath OutputPath d =
      snd (FsSaveArrayToFile E (DiskBeforeWrite E OutputPath d) bytes
             (FPaths.ChangeExtension OutputPath ".jpg")).
Proof.
  intros Hs.
  pose proof (export_run E ObjectPath OutputPath d) as R.
  destruct (exported_run E _ _ _ _ _ R Hs) as (obj & _ & Hok & Hd & Ht).
  exists (EncodeCalls E ObjectPath obj ++ DirectoryCalls E OutputPath d),
         (CompressedOf E (ThumbnailFor E obj)).
  split; [rewrite Ht, <- app_assoc; reflexivity|].
  split; [rewrite existsb_app, DirectoryCalls_no_log; reflexivity|].
  split; [rewrite existsb_app, DirectoryCalls_no_write; reflexivity|].
  split; [|split; [exact Hok | exact Hd]].
  intros Hf. apply (failed_iff_not_succeeded E _ _ _ _ _ R) in Hf. contradiction.
Qed.

Lemma successful_export_logs_written_path_witness :
  Succeeded (ExportCalls (Editor.engine Editor.standard) Editor.Rock "C:/Thumbs/Rock.png"
               Editor.emptyDisk) /\
  ~ Failed (ExportCalls (Editor.engine Editor.standard) Editor.Rock "C:/Thumbs/Rock.png"
              Editor.emptyDisk).
Proof.
  assert (Hs : Succeeded (ExportCalls (Editor.engine Editor.standard) Editor.Rock
                            "C:/Thumbs/Rock.png" Editor.emptyDisk)).
  { vm_compute. reflexivity. }
  split; [exact Hs|].
  destruct (successful_export_logs_written_path (Editor.engine Editor.standard)
              Editor.Rock "C:/Thumbs/Rock.png" Editor.emptyDisk Hs)
    as (pre & bytes & _ & _ & _ & Hnf & _).
  exact Hnf.
Defined.

(** ** What the engine is asked *)

(** X6. In a run that attempts the write, MakeDirectory is called exactly
    when the directory of the output path did not exist; any MakeDirectory
    call is for that directory with Tree = true; and with the directory in
    place the write acts on the file system the routine started on. *)
Theorem directory_made_exactly_when_missing (E : Engine)
    (ObjectPath OutputPath : FString) (d : FileSystem E)
    (bytes : list byte) (p : FString) :
  In (CallSaveArrayToFile bytes p) (ExportCalls E ObjectPath OutputPath d) ->
  (In (CallMakeDirectory (FPaths.GetPath OutputPath) true)
      (ExportCalls E ObjectPath OutputPath d) <->
   FsDirectoryExists E d (FPaths.GetPath OutputPath) = false) /\
  (forall x tree,
      In (CallMakeDirectory x tree) (ExportCalls E ObjectPath OutputPath d) ->
      x = FPaths.GetPath OutputPath /\ tree = true) /\
  (FsDirectoryExists E d (FPaths.GetPath OutputPath) = true ->
   ExportDisk E ObjectPath OutputPath d = snd (FsSaveArrayToFile E d bytes p)).
Proof.
  intros Hw.
  pose proof (export_run E ObjectPath OutputPath d) as R.
  rewrite <- (OutputDirectory_eq OutputPath).
  split; [split|split].
  - intros Hm. destruct (run_make_directory E _ _ _ _ _ _ _ R Hm) as (_ & _ & He & _).
    exact He.
  - intros He.
    destruct (write_step E _ _ _ _ _ bytes p R Hw) as (obj & _ & _ & _ & _ & Ht).
    rewrite Ht. apply in_or_app; right. apply in_or_app; left.
    unfold DirectoryCalls. rewrite He. right. left. reflexivity.
  - intros x tree Hm.
    destruct (run_make_directory E _ _ _ _ _ _ _ R Hm) as (Hx & Htree & _).
    split; assumption.
  - intros He. exact (run_existing_directory E _ _ _ _ _ bytes p R Hw He).
Qed.

Lemma directory_made_exactly_when_missing_witness :
  In (CallSaveArrayToFile [xff; xd8; xff; xd9] "C:/Thumbs/Rock.jpg")
     (ExportCalls (Editor.engine Editor.standard) Editor.Rock "C:/Thumbs/Rock.png"
        Bench.thumbsDisk) /\
  FsDirectoryExists (Editor.engine Editor.standard) Bench.thumbsDisk
    (FPaths.GetPath "C:/Thumbs/Rock.png") = true /\
  ~ In (CallMakeDirectory (FPaths.GetPath "C:/Thumbs/Rock.png") true)
       (ExportCalls (Editor.engine Editor.standard) Editor.Rock "C:/Thumbs/Rock.png"
          Bench.thumbsDisk).
Proof.
  assert (Hw : In (CallSaveArrayToFile [xff; xd8; xff; xd9] "C:/Thumbs/Rock.jpg")
                 (ExportCalls (Editor.engine Editor.standard) Editor.Rock
                    "C:/Thumbs/Rock.png" Bench.thumbsDisk)).
  { vm_compute. auto 12. }
  assert (He : FsDirectoryExists (Editor.engine Editor.standard) Bench.thumbsDisk
                 (FPaths.GetPath "C:/Thumbs/Rock.png") = true).
  { reflexivity. }
  split; [exact Hw|]. split; [exact He|].
  intros Hm.
  pose proof (proj1 (proj1 (directory_made_exactly_when_missing
                              (Editor.engine Editor.standard) Editor.Rock
                              "C:/Thumbs/Rock.png" Bench.thumbsDisk
                              [xff; xd8; xff; xd9] "C:/Thumbs/Rock.jpg" Hw)) Hm) as Hf.
  rewrite He in Hf. discriminate.
Defined.

(** X7. The only image wrapper the routine ever asks for is the JPEG one:
    no run creates a PNG wrapper or one of any other format. *)
Theorem image_wrapper_is_always_jpeg (E : Engine) (ObjectPath OutputPath : FString)
    (d : FileSystem E) (fmt : EImageFormat) :
  In (CallCreateImageWrapper fmt) (ExportCalls E ObjectPath OutputPath d) ->
  fmt = JPEG.
Proof.
  exact (run_wrapper_format E _ _ _ _ _ fmt (export_run E ObjectPath OutputPath d)).
Qed.

Lemma image_wrapper_is_always_jpeg_witness :
  In (CallCreateImageWrapper JPEG)
     (ExportCalls (Editor.engine Editor.standard) Editor.Rock "C:/Thumbs/Rock.png"
        Editor.emptyDisk) /\
  JPEG = JPEG.
Proof.
  assert (H : In (CallCreateImageWrapper JPEG)
                (ExportCalls (Editor.engine Editor.standard) Editor.Rock
                   "C:/Thumbs/Rock.png" Editor.emptyDisk)).
  { vm_compute. auto 10. }
  split; [exact H|].
  exact (image_wrapper_is_always_jpeg (Editor.engine Editor.standard) Editor.Rock
           "C:/Thumbs/Rock.png" Editor.emptyDisk JPEG H).
Defined.

(** X8. The raw image handed to SetRaw is never empty: its data is the pixel
    data of the thumbnail rendered for the asset, its size is the number of
    those bytes, its format is BGRA and its bit depth 8. *)
Theorem raw_image_is_thumbnail_data (E : Engine) (ObjectPath OutputPath : FString)
    (d : FileSystem E) (raw : FRawImage) :
  In (CallSetRaw raw) (ExportCalls E ObjectPath OutputPath d) ->
  RawData raw <> [] /\
  RawSize raw = Num (RawData raw) /\
  RawFormat raw = BGRA /\
  RawBitDepth raw = 8%Z /\
  exists obj,
    AssetOf E (RegistryLookup E ObjectPath) = Some obj /\
    RawData raw =
      GetUncompressedImageData (Render E obj 256 256 AlwaysFlush EmptyThumbnail).
Proof.
  intros H.
  destruct (run_raw_data E _ _ _ _ _ raw (export_run E ObjectPath OutputPath d) H)
    as (obj & Ha & -> & Hd).
  split; [exact Hd|]. split; [reflexivity|]. split; [reflexivity|].
  split; [reflexivity|]. exists obj. split; [exact Ha | reflexivity].
Qed.

Lemma raw_image_is_thumbnail_data_witness :
  In (CallSetRaw (mkRaw Editor.Pixel 4 256 256 BGRA 8))
     (ExportCalls (Editor.engine Editor.standard) Editor.Rock "C:/Thumbs/Rock.png"
        Editor.emptyDisk) /\
  RawData (mkRaw Editor.Pixel 4 256 256 BGRA 8) <> [].
Proof.
  assert (H : In (CallSetRaw (mkRaw Editor.Pixel 4 256 256 BGRA 8))
                (ExportCalls (Editor.engine Editor.standard) Editor.Rock
                   "C:/Thumbs/Rock.png" Editor.emptyDisk)).
  { vm_compute. auto 10. }
  split; [exact H|].
  exact (proj1 (raw_image_is_thumbnail_data (Editor.engine Editor.standard) Editor.Rock
                  "C:/Thumbs/Rock.png" Editor.emptyDisk
                  (mkRaw Editor.Pixel 4 256 256 BGRA 8) H)).
Defined.

(** X9. The routine never writes an empty file and never writes to an empty
    file name: the bytes of any write are not empty, and neither is the file
    name. *)
Theorem never_writes_empty_file (E : Engine) (ObjectPath OutputPath : FString)
    (d : FileSystem E) (bytes : list byte) (p : FString) :
  In (CallSaveArrayToFile bytes p) (ExportCalls E ObjectPath OutputPath d) ->
  bytes <> [] /\ p <> EmptyString.
Proof.
  intros Hw.
  pose proof (export_run E ObjectPath OutputPath d) as R.
  destruct (run_write_not_empty E _ _ _ _ _ bytes p R Hw) as (Hb & _ & Ho).
  split; [exact Hb|].
  destruct (write_step E _ _ _ _ _ bytes p R Hw) as (_ & _ & _ & Hp & _).
  subst p. now apply ChangeExtension_not_empty.
Qed.

Lemma never_writes_empty_file_witness :
  In (CallSaveArrayToFile [xff; xd8; xff; xd9] "C:/Thumbs/Rock.jpg")
     (ExportCalls (Editor.engine Editor.standard) Editor.Rock "C:/Thumbs/Rock.png"
        Editor.emptyDisk) /\
  [xff; xd8; xff; xd9] <> [] /\ "C:/Thumbs/Rock.jpg"%string <> EmptyString.
Proof.
  assert (Hw : In (CallSaveArrayToFile [xff; xd8; xff; xd9] "C:/Thumbs/Rock.jpg")
                 (ExportCalls (Editor.engine Editor.standard) Editor.Rock
                    "C:/Thumbs/Rock.png" Editor.emptyDisk)).
  { vm_compute. auto 12. }
  split; [exact Hw|].
  exact (never_writes_empty_file (Editor.engine Editor.standard) Editor.Rock
           "C:/Thumbs/Rock.png" Editor.emptyDisk
           [xff; xd8; xff; xd9] "C:/Thumbs/Rock.jpg" Hw).
Defined.

(** X10. Whatever the outcome of the run, the renderer is only ever asked for
    the object the registry returned for the object path, at 256 x 256, with
    flush mode AlwaysFlush. *)
Theorem renderer_is_asked_for_256_square (E : Engine) (ObjectPath OutputPath : FString)
    (d : FileSystem E) (o : UObject E) (w h : Z) (f : EThumbnailTextureFlushMode) :
  In (CallRenderThumbnail o w h f) (ExportCalls E ObjectPath OutputPath d) ->
  AssetOf E (RegistryLookup E ObjectPath) = Some o /\
  w = 256%Z /\ h = 256%Z /\ f = AlwaysFlush.
Proof.
  exact (run_render E _ _ _ _ _ o w h f (export_run E ObjectPath OutputPath d)).
Qed.

Lemma renderer_is_asked_for_256_square_witness :
  In (@CallRenderThumbnail (Editor.engine Bench.blank) Editor.Rock 256 256 AlwaysFlush)
     (ExportCalls (Editor.engine Bench.blank) Editor.Rock "C:/Thumbs/Rock.png"
        Editor.emptyDisk) /\
  AssetOf (Editor.engine Bench.blank)
    (RegistryLookup (Editor.engine Bench.blank) Editor.Rock) = Some Editor.Rock.
Proof.
  assert (H : In (@CallRenderThumbnail (Editor.engine Bench.blank) Editor.Rock
                    256 256 AlwaysFlush)
                (ExportCalls (Editor.engine Bench.blank) Editor.Rock
                   "C:/Thumbs/Rock.png" Editor.emptyDisk)).
  { vm_compute. auto 10. }
  split; [exact H|].
  exact (proj1 (renderer_is_asked_for_256_square (Editor.engine Bench.blank) Editor.Rock
                  "C:/Thumbs/Rock.png" Editor.emptyDisk Editor.Rock 256 256 AlwaysFlush H)).
Defined.

(** X11. The calls of every run follow the order of the source, each step at
    most once and none retried: the kinds of the calls are a prefix of
    registry lookup, GetAsset, render, CreateImageWrapper, SetRaw,
    GetCompressed, DirectoryExists, MakeDirectory (only where the directory
    is missing), SaveArrayToFile, followed by exactly one log call. *)
Theorem calls_follow_the_pipeline (E : Engine) (ObjectPath OutputPath : FString)
    (d : FileSystem E) :
  exists n,
    map KindOf (ExportCalls E ObjectPath OutputPath d) =
    firstn n (Pipeline (negb (FsDirectoryExists E d (FPaths.GetPath OutputPath))))
    ++ [KLog].
Proof.
  rewrite <- (OutputDirectory_eq OutputPath).
  exact (run_kinds E _ _ _ _ _ (export_run E ObjectPath OutputPath d)).
Qed.

(** X13. The file manager is only involved in runs that go on to the write:
    if a run makes any file-system call (a directory test or creation
    included), it attempts the write of a non-empty byte array to the
    extension-swapped path. *)
Theorem file_system_calls_imply_write_attempt (E : Engine)
    (ObjectPath OutputPath : FString) (d : FileSystem E) :
  existsb IsFileSystemCall (ExportCalls E ObjectPath OutputPath d) = true ->
  exists bytes,
    In (CallSaveArrayToFile bytes (FPaths.ChangeExtension OutputPath ".jpg"))
       (ExportCalls E ObjectPath OutputPath d) /\
    bytes <> [].
Proof.
  intros Hfs.
  pose proof (export_run E ObjectPath OutputPath d) as R.
  destruct (existsb IsWrite (ExportCalls E ObjectPath OutputPath d)) eqn:Hw.
  - apply existsb_exists in Hw. destruct Hw as (c & Hin & Hc).
    destruct c; try discriminate.
    destruct (write_step E _ _ _ _ _ _ _ R Hin) as (_ & _ & _ & Hp & _).
    unfold NewOutputPath in Hp. subst Filename.
    exists Bytes. split; [exact Hin|].
    exact (proj1 (run_write_not_empty E _ _ _ _ _ _ _ R Hin)).
  - destruct (no_write_no_effect E _ _ _ _ _ R Hw) as [_ Hno].
    rewrite Hno in Hfs. discriminate.
Qed.

Lemma file_system_calls_imply_write_attempt_witness :
  existsb IsFileSystemCall
    (ExportCalls (Editor.engine Editor.locked) Editor.Rock "C:/Thumbs/Rock.png"
       Editor.emptyDisk) = true /\
  exists bytes,
    In (CallSaveArrayToFile bytes (FPaths.ChangeExtension "C:/Thumbs/Rock.png" ".jpg"))
       (ExportCalls (Editor.engine Editor.locked) Editor.Rock "C:/Thumbs/Rock.png"
          Editor.emptyDisk) /\
    bytes <> [].
Proof.
  assert (H : existsb IsFileSystemCall
                (ExportCalls (Editor.engine Editor.locked) Editor.Rock
                   "C:/Thumbs/Rock.png" Editor.emptyDisk) = true).
  { vm_compute. reflexivity. }
  split; [exact H|].
  exact (file_system_calls_imply_write_attempt (Editor.engine Editor.locked) Editor.Rock
           "C:/Thumbs/Rock.png" Editor.emptyDisk H).
Defined.

(** ** Exporting again *)

Section RepeatFacts.

Variable E : Engine.

Lemma directory_after_write (ObjectPath OutputPath : FString) (d : FileSystem E)
    (bytes : list byte) (p : FString) :
  MakeDirectoryCreates E ->
  WritesKeepDirectories E ->
  In (CallSaveArrayToFile bytes p) (ExportCalls E ObjectPath OutputPath d) ->
  FsDirectoryExists E (ExportDisk E ObjectPath OutputPath d)
    (OutputDirectory OutputPath) = true.
Proof.
  intros Hmk Hkeep Hw.
  destruct (write_step E _ _ _ _ _ bytes p (export_run E ObjectPath OutputPath d) Hw)
    as (_ & _ & _ & _ & Hd & _).
  rewrite Hd. apply Hkeep. unfold DiskBeforeWrite.
  destruct (FsDirectoryExists E d (OutputDirectory OutputPath)) eqn:He;
    [exact He | apply Hmk].
Qed.

End RepeatFacts.

(** X14. On an engine where MakeDirectory leaves the directory in place and
    writes remove no directory, every run that attempts the write, whether
    the write succeeds or fails, returns with the directory of the output
    path in existence. *)
Theorem directory_exists_after_write_attempt (E : Engine)
    (ObjectPath OutputPath : FString) (d : FileSystem E)
    (bytes : list byte) (p : FString) :
  MakeDirectoryCreates E ->
  WritesKeepDirectories E ->
  In (CallSaveArrayToFile bytes p) (ExportCalls E ObjectPath OutputPath d) ->
  FsDirectoryExists E (ExportDisk E ObjectPath OutputPath d)
    (FPaths.GetPath OutputPath) = true.
Proof.
  intros Hmk Hkeep Hw. rewrite <- (OutputDirectory_eq OutputPath).
  exact (directory_after_write E _ _ _ bytes p Hmk Hkeep Hw).
Qed.

Lemma Editor_MakeDirectoryCreates (cfg : Editor.Config) :
  MakeDirectoryCreates (Editor.engine cfg).
Proof.
  intros d0 q. simpl. unfold Editor.Knows. simpl. rewrite String.eqb_refl. reflexivity.
Qed.

Lemma Editor_WritesKeepDirectories (cfg : Editor.Config) :
  WritesKeepDirectories (Editor.engine cfg).
Proof.
  intros d0 b q x H. simpl. destruct (Editor.WriteProtected cfg q); exact H.
Qed.

Lemma directory_exists_after_write_attempt_witness :
  MakeDirectoryCreates (Editor.engine Editor.locked) /\
  WritesKeepDirectories (Editor.engine Editor.locked) /\
  In (CallSaveArrayToFile [xff; xd8; xff; xd9] "C:/Thumbs/Rock.jpg")
     (ExportCalls (Editor.engine Editor.locked) Editor.Rock "C:/Thumbs/Rock.png"
        Editor.emptyDisk) /\
  FsDirectoryExists (Editor.engine Editor.locked)
    (ExportDisk (Editor.engine Editor.locked) Editor.Rock "C:/Thumbs/Rock.png"
       Editor.emptyDisk)
    (FPaths.GetPath "C:/Thumbs/Rock.png") = true.
Proof.
  assert (Hw : In (CallSaveArrayToFile [xff; xd8; xff; xd9] "C:/Thumbs/Rock.jpg")
                 (ExportCalls (Editor.engine Editor.locked) Editor.Rock
                    "C:/Thumbs/Rock.png" Editor.emptyDisk)).
  { vm_compute. auto 12. }
  split; [apply Editor_MakeDirectoryCreates|].
  split; [apply Editor_WritesKeepDirectories|].
  split; [exact Hw|].
  exact (directory_exists_after_write_attempt (Editor.engine Editor.locked) Editor.Rock
           "C:/Thumbs/Rock.png" Editor.emptyDisk [xff; xd8; xff; xd9] "C:/Thumbs/Rock.jpg"
           (Editor_MakeDirectoryCreates Editor.locked)
           (Editor_WritesKeepDirectories Editor.locked) Hw).
Defined.

(** X15. On such an engine, once a run has attempted the write, an export of
    any asset to the same output path, started on the file system that run
    left, never calls MakeDirectory: the directory is created at most once
    over repeated exports. *)
Theorem repeated_export_makes_no_directory (E : Engine)
    (ObjectPath ObjectPath' OutputPath : FString) (d : FileSystem E)
    (bytes : list byte) (p : FString) (x : FString) (tree : bool) :
  MakeDirectoryCreates E ->
  WritesKeepDirectories E ->
  In (CallSaveArrayToFile bytes p) (ExportCalls E ObjectPath OutputPath d) ->
  ~ In (CallMakeDirectory x tree)
       (ExportCalls E ObjectPath' OutputPath (ExportDisk E ObjectPath OutputPath d)).
Proof.
  intros Hmk Hkeep Hw Hm.
  pose proof (directory_after_write E _ _ _ bytes p Hmk Hkeep Hw) as He.
  destruct (run_make_directory E _ _ _ _ _ _ _
              (export_run E ObjectPath' OutputPath (ExportDisk E ObjectPath OutputPath d))
              Hm) as (_ & _ & Hno & _).
  rewrite He in Hno. discriminate.
Qed.

Lemma repeated_export_makes_no_directory_witness :
  In (CallSaveArrayToFile [xff; xd8; xff; xd9] "C:/Thumbs/Rock.jpg")
     (ExportCalls (Editor.engine Editor.standard) Editor.Rock "C:/Thumbs/Rock.png"
        Editor.emptyDisk) /\
  ~ In (CallMakeDirectory "C:/Thumbs" true)
       (ExportCalls (Editor.engine Editor.standard) Editor.Rock "C:/Thumbs/Rock.png"
          (ExportDisk (Editor.engine Editor.standard) Editor.Rock "C:/Thumbs/Rock.png"
             Editor.emptyDisk)).
Proof.
  assert (Hw : In (CallSaveArrayToFile [xff; xd8; xff; xd9] "C:/Thumbs/Rock.jpg")
                 (ExportCalls (Editor.engine Editor.standard) Editor.Rock
                    "C:/Thumbs/Rock.png" Editor.emptyDisk)).
  { vm_compute. auto 12. }
  split; [exact Hw|].
  exact (repeated_export_makes_no_directory (Editor.engine Editor.standard)
           Editor.Rock Editor.Rock "C:/Thumbs/Rock.png" Editor.emptyDisk
           [xff; xd8; xff; xd9] "C:/Thumbs/Rock.jpg" "C:/Thumbs" true
           (Editor_MakeDirectoryCreates Editor.standard)
           (Editor_WritesKeepDirectories Editor.standard) Hw).
Defined.

(** ** The path written *)

(** X16. The file name a run writes to is a fixed point of the routine's
    extension swap: an export whose output path is that file name writes to
    that very file name. *)
Theorem written_path_is_kept_when_reused (E : Engine)
    (ObjectPath ObjectPath' OutputPath : FString) (d d' : FileSystem E)
    (bytes bytes' : list byte) (p p' : FString) :
  In (CallSaveArrayToFile bytes p) (ExportCalls E ObjectPath OutputPath d) ->
  In (CallSaveArrayToFile bytes' p') (ExportCalls E ObjectPath' p d') ->
  p' = p.
Proof.
  intros Hw Hw'.
  destruct (write_step E _ _ _ _ _ bytes p (export_run E ObjectPath OutputPath d) Hw)
    as (_ & _ & _ & Hp & _).
  destruct (write_step E _ _ _ _ _ bytes' p' (export_run E ObjectPath' p d') Hw')
    as (_ & _ & _ & Hp' & _).
  unfold NewOutputPath in Hp, Hp'. subst p p'.
  apply ChangeExtension_idempotent.
Qed.

Lemma written_path_is_kept_when_reused_witness :
  In (CallSaveArrayToFile [xff; xd8; xff; xd9] "C:/Thumbs/Rock.jpg")
     (ExportCalls (Editor.engine Editor.standard) Editor.Rock "C:/Thumbs/Rock.png"
        Editor.emptyDisk) /\
  In (CallSaveArrayToFile [xff; xd8; xff; xd9] "C:/Thumbs/Rock.jpg")
     (ExportCalls (Editor.engine Editor.standard) Editor.Rock "C:/Thumbs/Rock.jpg"
        Editor.emptyDisk) /\
  "C:/Thumbs/Rock.jpg"%string = "C:/Thumbs/Rock.jpg"%string.
Proof.
  assert (Hw : In (CallSaveArrayToFile [xff; xd8; xff; xd9] "C:/Thumbs/Rock.jpg")
                 (ExportCalls (Editor.engine Editor.standard) Editor.Rock
                    "C:/Thumbs/Rock.png" Editor.emptyDisk)).
  { vm_compute. auto 12. }
  assert (Hw' : In (CallSaveArrayToFile [xff; xd8; xff; xd9] "C:/Thumbs/Rock.jpg")
                  (ExportCalls (Editor.engine Editor.standard) Editor.Rock
                     "C:/Thumbs/Rock.jpg" Editor.emptyDisk)).
  { vm_compute. auto 12. }
  split; [exact Hw|]. split; [exact Hw'|].
  exact (written_path_is_kept_when_reused (Editor.engine Editor.standard)
           Editor.Rock Editor.Rock "C:/Thumbs/Rock.png" Editor.emptyDisk Editor.emptyDisk
           [xff; xd8; xff; xd9] [xff; xd8; xff; xd9]
           "C:/Thumbs/Rock.jpg" "C:/Thumbs/Rock.jpg" Hw Hw').
Defined.

(** X17. For an output path without any slash or backslash (a bare file
    name), the directory the routine tests, and creates if the engine reports
    it missing, is the empty string. *)
Theorem bare_file_name_tests_empty_directory (E : Engine)
    (ObjectPath OutputPath : FString) (d : FileSystem E) :
  FStr.FindLastCharByPredicate FPaths.IsSlashOrBackslash OutputPath = None ->
  (forall x,
      In (CallDirectoryExists x) (ExportCalls E ObjectPath OutputPath d) ->
      x = EmptyString) /\
  (forall x tree,
      In (CallMakeDirectory x tree) (ExportCalls E ObjectPath OutputPath d) ->
      x = EmptyString).
Proof.
  intros Hnone.
  pose proof (export_run E ObjectPath OutputPath d) as R.
  assert (Hdir : OutputDirectory OutputPath = EmptyString).
  { rewrite OutputDirectory_eq. unfold FPaths.GetPath. now rewrite Hnone. }
  split.
  - intros x Hx. destruct (run_directory_test E _ _ _ _ _ x R Hx) as (-> & _).
    exact Hdir.
  - intros x tree Hx.
    destruct (run_make_directory E _ _ _ _ _ x tree R Hx) as (-> & _).
    exact Hdir.
Qed.

Lemma bare_file_name_tests_empty_directory_witness :
  FStr.FindLastCharByPredicate FPaths.IsSlashOrBackslash "Rock.png" = None /\
  In (CallMakeDirectory EmptyString true)
     (ExportCalls (Editor.engine Editor.standard) Editor.Rock "Rock.png"
        Editor.emptyDisk) /\
  (forall x tree,
      In (CallMakeDirectory x tree)
         (ExportCalls (Editor.engine Editor.standard) Editor.Rock "Rock.png"
            Editor.emptyDisk) ->
      x = EmptyString).
Proof.
  assert (Hn : FStr.FindLastCharByPredicate FPaths.IsSlashOrBackslash "Rock.png" = None).
  { reflexivity. }
  split; [exact Hn|]. split; [vm_compute; auto 12|].
  exact (proj2 (bare_file_name_tests_empty_directory (Editor.engine Editor.standard)
                  Editor.Rock "Rock.png" Editor.emptyDisk Hn)).
Defined.

(** X18. For an output path with a separator, the file a run writes lies
    directly in the directory the run tested: the file name written is that
    directory (GetPath of the output path), one separator and a leaf name
    without separator. *)
Theorem written_file_is_in_tested_directory (E : Engine)
    (ObjectPath OutputPath : FString) (d : FileSystem E)
    (bytes : list byte) (p : FString) (i : nat) :
  In (CallSaveArrayToFile bytes p) (ExportCalls E ObjectPath OutputPath d) ->
  FStr.FindLastCharByPredicate FPaths.IsSlashOrBackslash OutputPath = Some i ->
  In (CallDirectoryExists (FPaths.GetPath OutputPath))
     (ExportCalls E ObjectPath OutputPath d) /\
  exists c leaf,
    p = (FPaths.GetPath OutputPath ++ String c leaf)%string /\
    FPaths.IsSlashOrBackslash c = true /\
    FStr.FindLastCharByPredicate FPaths.IsSlashOrBackslash leaf = None.
Proof.
  intros Hw Hi.
  pose proof (export_run E ObjectPath OutputPath d) as R.
  destruct (write_step E _ _ _ _ _ bytes p R Hw) as (obj & _ & _ & Hp & _ & Ht).
  split.
  - rewrite <- (OutputDirectory_eq OutputPath), Ht.
    apply in_or_app; right. apply in_or_app; left.
    unfold DirectoryCalls.
    destruct (FsDirectoryExists E d (OutputDirectory OutputPath)); left; reflexivity.
  - unfold NewOutputPath in Hp. subst p.
    rewrite <- FindLastSlash_ChangeExtension in Hi.
    destruct (GetPath_split _ _ Hi) as (c & leaf & Heq & Hc & Hl).
    exists c, leaf. rewrite GetPath_ChangeExtension in Heq. auto.
Qed.

Lemma written_file_is_in_tested_directory_witness :
  In (CallSaveArrayToFile [xff; xd8; xff; xd9] "C:/Thumbs/Rock.jpg")
     (ExportCalls (Editor.engine Editor.standard) Editor.Rock "C:/Thumbs/Rock.png"
        Editor.emptyDisk) /\
  FStr.FindLastCharByPredicate FPaths.IsSlashOrBackslash "C:/Thumbs/Rock.png" = Some 9 /\
  In (CallDirectoryExists (FPaths.GetPath "C:/Thumbs/Rock.png"))
     (ExportCalls (Editor.engine Editor.standard) Editor.Rock "C:/Thumbs/Rock.png"
        Editor.emptyDisk).
Proof.
  assert (Hw : In (CallSaveArrayToFile [xff; xd8; xff; xd9] "C:/Thumbs/Rock.jpg")
                 (ExportCalls (Editor.engine Editor.standard) Editor.Rock
                    "C:/Thumbs/Rock.png" Editor.emptyDisk)).
  { vm_compute. auto 12. }
  assert (Hi : FStr.FindLastCharByPredicate FPaths.IsSlashOrBackslash "C:/Thumbs/Rock.png"
               = Some 9).
  { reflexivity. }
  split; [exact Hw|]. split; [exact Hi|].
  exact (proj1 (written_file_is_in_tested_directory (Editor.engine Editor.standard)
                  Editor.Rock "C:/Thumbs/Rock.png" Editor.emptyDisk
                  [xff; xd8; xff; xd9] "C:/Thumbs/Rock.jpg" 9 Hw Hi)).
Defined.

(** X19. Whatever output path the caller gives, the file name a run writes
    to never ends in [.png]. *)
Theorem written_path_never_ends_in_png (E : Engine) (ObjectPath OutputPath : FString)
    (d : FileSystem E) (bytes : list byte) (p : FString) :
  In (CallSaveArrayToFile bytes p) (ExportCalls E ObjectPath OutputPath d) ->
  FStr.EndsWith ".png" p = false.
Proof.
  intros Hw.
  destruct (write_step E _ _ _ _ _ bytes p (export_run E ObjectPath OutputPath d) Hw)
    as (_ & _ & _ & Hp & _).
  unfold NewOutputPath in Hp. subst p. apply ChangeExtension_not_png.
Qed.

Lemma written_path_never_ends_in_png_witness :
  In (CallSaveArrayToFile [xff; xd8; xff; xd9] "C:/Thumbs/Rock.jpg")
     (ExportCalls (Editor.engine Editor.standard) Editor.Rock "C:/Thumbs/Rock.png"
        Editor.emptyDisk) /\
  FStr.EndsWith ".png" "C:/Thumbs/Rock.jpg" = false.
Proof.
  assert (Hw : In (CallSaveArrayToFile [xff; xd8; xff; xd9] "C:/Thumbs/Rock.jpg")
                 (ExportCalls (Editor.engine Editor.standard) Editor.Rock
                    "C:/Thumbs/Rock.png" Editor.emptyDisk)).
  { vm_compute. auto 12. }
  split; [exact Hw|].
  exact (written_path_never_ends_in_png (Editor.engine Editor.standard) Editor.Rock
           "C:/Thumbs/Rock.png" Editor.emptyDisk
           [xff; xd8; xff; xd9] "C:/Thumbs/Rock.jpg" Hw).
Defined.
